(** * The remote control agent of GraspVLA-playground (src/agent.py)

    A shallow embedding of [RemoteAgent]: the proprioception history, the
    request/response exchange with the model server, the conversion of a
    delta action to an absolute action, the expansion of gripper transitions
    and the per-tick [step].

    Scalars are IEEE binary64 floats, as numpy's float64; one-dimensional
    arrays are lists.  Python exceptions are values of [exn]; a computation
    that mutates the agent is a function from the agent to a result and the
    agent it leaves behind, so that what was mutated before an exception was
    raised stays mutated, as in Python. *)

From Stdlib Require Import Ascii ZArith String List Lia Arith Bool Floats.
From Equations Require Import Equations.
Import ListNotations.

(** ** Exceptions and the state-and-exception monad *)

Inductive exn : Type :=
| KeyError (key : string)   (* a dict lookup on a missing key *)
| IndexError                (* an index out of range, a pop from an empty deque *)
| TypeError                 (* a call with missing positional arguments *)
| ValueError                (* operands that cannot be broadcast together,
                               math.sin or math.cos of an infinity *)
| RuntimeError              (* torch: a reshape to an incompatible shape *)
| ZMQError                  (* the socket refused to send *)
| Again.                    (* zmq.error.Again: RCVTIMEO elapsed in recv *)

(** The name of the class of an exception. *)
Definition exn_name (e : exn) : string :=
  match e with
  | KeyError _ => "KeyError"
  | IndexError => "IndexError"
  | TypeError => "TypeError"
  | ValueError => "ValueError"
  | RuntimeError => "RuntimeError"
  | ZMQError => "ZMQError"
  | Again => "Again"
  end.

Inductive result (A : Type) : Type :=
| Ok (a : A)
| Raise (e : exn).
Arguments Ok {A} a.
Arguments Raise {A} e.

Definition Py (S A : Type) : Type := S -> result A * S.

Definition ret {S A} (a : A) : Py S A := fun s => (Ok a, s).

Definition bind {S A B} (c : Py S A) (k : A -> Py S B) : Py S B :=
  fun s => match c s with
           | (Ok a, s') => k a s'
           | (Raise e, s') => (Raise e, s')
           end.

Definition lift {S A} (r : result A) : Py S A := fun s => (r, s).
Definition get {S} : Py S S := fun s => (Ok s, s).
Definition modify {S} (f : S -> S) : Py S unit := fun s => (Ok tt, f s).

Declare Scope py_scope.
Delimit Scope py_scope with py.
Notation "x <- c ;; k" := (bind c (fun x => k))
  (at level 61, c at next level, right associativity) : py_scope.
Notation "' p <- c ;; k" := (bind c (fun p => k))
  (at level 61, p pattern, c at next level, right associativity) : py_scope.
Notation "c ;; k" := (bind c (fun _ => k))
  (at level 61, right associativity) : py_scope.

(** [for _ in range(n): body] *)
Fixpoint for_range {S} (n : nat) (body : Py S unit) : Py S unit :=
  match n with
  | 0 => ret tt
  | S n' => (body ;; for_range n' body)%py
  end.

(** ** numpy: one-dimensional float64 arrays *)

Definition ndarray : Type := list float.

(** [a[i:j]] for [0 <= i <= j]; a slice never raises, it truncates. *)
Definition slice (i j : nat) (a : ndarray) : ndarray :=
  firstn (j - i) (skipn i a).

(** [a[i]] for [0 <= i]. *)
Definition getitem (a : ndarray) (i : nat) : result float :=
  match nth_error a i with
  | Some x => Ok x
  | None => Raise IndexError
  end.

(** [a[i] = v] for [0 <= i]. *)
Fixpoint setitem (a : ndarray) (i : nat) (v : float) : result ndarray :=
  match a, i with
  | [], _ => Raise IndexError
  | _ :: t, 0 => Ok (v :: t)
  | x :: t, S i' =>
      match setitem t i' v with
      | Ok t' => Ok (x :: t')
      | Raise e => Raise e
      end
  end.

Fixpoint zip_add (a b : ndarray) : ndarray :=
  match a, b with
  | x :: a', y :: b' => (x + y)%float :: zip_add a' b'
  | _, _ => []
  end.

(** [a + b]: element by element when the shapes agree, a one-element
    operand is broadcast, any other pair of shapes raises. *)
Definition np_add (a b : ndarray) : result ndarray :=
  if length a =? length b then Ok (zip_add a b)
  else match a, b with
       | [x], _ => Ok (map (fun y => (x + y)%float) b)
       | _, [y] => Ok (map (fun x => (x + y)%float) a)
       | _, _ => Raise ValueError
       end.

(** ** collections.deque *)

Section Deque.
Context {A : Type}.

(** [d.append(x)] on a deque built with [maxlen]: a full deque drops its
    leftmost element; a deque of [maxlen] zero stays empty. *)
Definition deque_append (maxlen : nat) (d : list A) (x : A) : list A :=
  if maxlen =? 0 then d
  else if length d <? maxlen then d ++ [x]
  else tl d ++ [x].

(** [d[-1]] *)
Definition deque_last (d : list A) : result A :=
  match rev d with
  | x :: _ => Ok x
  | [] => Raise IndexError
  end.

(** [d.popleft()] *)
Definition deque_popleft (d : list A) : result (A * list A) :=
  match d with
  | x :: d' => Ok (x, d')
  | [] => Raise IndexError
  end.

(** The padding loop of [_process_proprio]:
    [while len(d) < d.maxlen: d.append(d[-1])]. *)
Equations? pad_history (maxlen : nat) (d : list A) : result (list A)
  by wf (maxlen - length d) lt :=
pad_history maxlen d with lt_dec (length d) maxlen := {
  | right _ => Ok d
  | left _ with deque_last d := {
      | Ok x => pad_history maxlen (deque_append maxlen d x)
      | Raise e => Raise e } }.
Proof.
  unfold deque_append.
  destruct (Nat.eqb_spec maxlen 0); [lia|].
  destruct (Nat.ltb_spec (length d) maxlen); [|lia].
  rewrite length_app; simpl; lia.
Qed.

(** ProprioceptionBuffer.update: append the frame, then pad. *)
Definition buffer_update (maxlen : nat) (d : list A) (frame : A)
  : result (list A) :=
  pad_history maxlen (deque_append maxlen d frame).

(** A sequence of updates, each on the buffer the previous one left. *)
Fixpoint buffer_updates (maxlen : nat) (d : list A) (frames : list A)
  : result (list A) :=
  match frames with
  | [] => Ok d
  | f :: fs =>
      match buffer_update maxlen d f with
      | Ok d' => buffer_updates maxlen d' fs
      | Raise e => Raise e
      end
  end.
End Deque.

(** ** External collaborators

    transforms3d, numpy's matrix product and cuRobo's forward kinematics are
    libraries outside the repository; the agent is modelled over any
    implementation of them.  [euler2mat] takes the sine and the cosine of
    its angles with [math.sin] and [math.cos], which raise ValueError on an
    infinite angle: it is a function that may raise. *)

Class Collaborators : Type := {
  Mat : Type;                                   (* a 3x3 rotation matrix *)
  Quat : Type;                                  (* a quaternion *)
  euler2mat : float -> float -> float -> result Mat;
                                                (* t3d.euler.euler2mat, axes sxyz *)
  mat2euler : Mat -> float * float * float;     (* t3d.euler.mat2euler, axes sxyz *)
  matmul : Mat -> Mat -> Mat;                   (* the operator @ *)
  quat2euler : Quat -> float * float * float;   (* t3d.euler.quat2euler, axes sxyz *)
  fk_position : list float -> float * float * float;  (* ik_solver.fk(q).ee_position[0] *)
  fk_quaternion : list float -> Quat            (* ik_solver.fk(q).ee_quaternion[0] *)
}.

(** ** Messages and the agent *)

Definition BBox : Type := list (list float).
Definition Image : Type := list (list (list nat)).

Record Obs : Type := {
  robot0_joint_pos : list float;
  front_view_image : Image;
  side_view_image : Image
}.

(** The dict sent to the model server. *)
Record Request : Type := {
  req_front_view_image : list Image;
  req_side_view_image : list Image;
  req_proprio_array : list ndarray;
  req_text : string
}.

(** The object received from the model server: a dict in which ['result']
    and ['debug'] may be missing, and so may ['bbox'] inside ['debug']. *)
Record Response : Type := {
  resp_result : option (list ndarray);
  resp_debug : option (option BBox)
}.

(** What the transport does when it is used during a tick: whether
    [send_pyobj] goes through, and what [recv_pyobj] returns within the
    receive timeout ([None]: nothing arrived). *)
Record Net : Type := {
  send_ok : bool;
  reply : option Response
}.

(** Calls that reached the socket, oldest first. *)
Inductive Event : Type :=
| EvSend (data : Request)
| EvRecv (response : option Response).

Record Agent : Type := {
  proprio_history : list ndarray;
  instruction : string;
  pred_actions : list (ndarray * BBox);
  finger_state : float;
  wire : list Event            (* ghost: what went over [self.socket] *)
}.

Definition PROPRIO_HISTORY_SIZE : nat := 4.
Definition GRIPPER_OPEN : float := 1%float.
Definition GRIP_TRANSITION_ACTIONS : nat := 4.

Definition set_proprio_history (h : list ndarray) (st : Agent) : Agent :=
  {| proprio_history := h; instruction := instruction st;
     pred_actions := pred_actions st; finger_state := finger_state st;
     wire := wire st |}.

Definition set_pred_actions (q : list (ndarray * BBox)) (st : Agent) : Agent :=
  {| proprio_history := proprio_history st; instruction := instruction st;
     pred_actions := q; finger_state := finger_state st; wire := wire st |}.

Definition set_finger_state (g : float) (st : Agent) : Agent :=
  {| proprio_history := proprio_history st; instruction := instruction st;
     pred_actions := pred_actions st; finger_state := g; wire := wire st |}.

Definition log_event (e : Event) (st : Agent) : Agent :=
  {| proprio_history := proprio_history st; instruction := instruction st;
     pred_actions := pred_actions st; finger_state := finger_state st;
     wire := wire st ++ [e] |}.

(** [_initialize_state] *)
Definition initialize_state (instr : string) : Agent :=
  {| proprio_history := [];
     instruction := instr;
     pred_actions := [];
     finger_state := GRIPPER_OPEN;
     wire := [] |}.

(** [self.pred_actions.append(x)] *)
Definition pred_actions_append (x : ndarray * BBox) : Py Agent unit :=
  modify (fun st => set_pred_actions (pred_actions st ++ [x]) st).

(** [self.pred_actions.popleft()] *)
Definition pred_actions_popleft : Py Agent (ndarray * BBox) :=
  (st <- get ;;
   ' (x, q) <- lift (deque_popleft (pred_actions st)) ;;
   modify (set_pred_actions q) ;;
   ret x)%py.

(** [self.socket.send_pyobj(data)] *)
Definition send_pyobj (net : Net) (data : Request) : Py Agent unit :=
  if send_ok net then modify (log_event (EvSend data))
  else lift (Raise ZMQError).

(** [self.socket.recv_pyobj()] *)
Definition recv_pyobj (net : Net) : Py Agent Response :=
  (modify (log_event (EvRecv (reply net))) ;;
   match reply net with
   | Some r => ret r
   | None => lift (Raise Again)
   end)%py.

(** [response['debug']['bbox']] *)
Definition response_bbox (r : Response) : result BBox :=
  match resp_debug r with
  | None => Raise (KeyError "debug")
  | Some None => Raise (KeyError "bbox")
  | Some (Some b) => Ok b
  end.

(** [response['result']] *)
Definition response_result (r : Response) : result (list ndarray) :=
  match resp_result r with
  | None => Raise (KeyError "result")
  | Some chunk => Ok chunk
  end.

Section Agent.
Context {C : Collaborators}.

(** A call of [f] on an unpacked array, for [f] of three positional
    arguments: TypeError when the array has not three elements, else what
    [f] returns or raises. *)
Definition star3 {B} (f : float -> float -> float -> result B) (a : ndarray)
  : result B :=
  match a with
  | [x; y; z] => f x y z
  | _ => Raise TypeError
  end.

Definition of_tuple3 (t : float * float * float) : ndarray :=
  let '(x, y, z) := t in [x; y; z].

(** [_delta_to_abs] *)
Definition delta_to_abs (delta_action current_pose : ndarray)
  : result ndarray :=
  match star3 euler2mat (slice 3 6 current_pose) with
  | Raise e => Raise e
  | Ok current_rot =>
  match star3 euler2mat (slice 3 6 delta_action) with
  | Raise e => Raise e
  | Ok delta_rot =>
  let next_rot := matmul delta_rot current_rot in
  let current_trans := slice 0 3 current_pose in
  match np_add current_trans (slice 0 3 delta_action) with
  | Raise e => Raise e
  | Ok next_trans =>
  match getitem delta_action 6 with
  | Raise e => Raise e
  | Ok g =>
      Ok (next_trans ++ of_tuple3 (mat2euler next_rot) ++ [g])
  end end end end.

(** [torch.tensor(q).reshape(1, 7)] *)
Definition reshape_1_7 (q : list float) : result (list float) :=
  if length q =? 7 then Ok q else Raise RuntimeError.

(** The array [get_current_proprio] concatenates from an observation when the
    gripper state is [g]. *)
Definition proprio_frame (obs : Obs) (g : float) : ndarray :=
  of_tuple3 (fk_position (robot0_joint_pos obs))
  ++ of_tuple3 (quat2euler (fk_quaternion (robot0_joint_pos obs)))
  ++ [g].

(** [get_current_proprio] *)
Definition get_current_proprio (obs : Obs) : Py Agent ndarray :=
  (current_joint_states <- lift (reshape_1_7 (robot0_joint_pos obs)) ;;
   st <- get ;;
   ret (of_tuple3 (fk_position current_joint_states)
        ++ of_tuple3 (quat2euler (fk_quaternion current_joint_states))
        ++ [finger_state st]))%py.

(** [_process_proprio] *)
Definition process_proprio (obs : Obs) : Py Agent unit :=
  (current_proprio <- get_current_proprio obs ;;
   modify (fun st =>
     set_proprio_history
       (deque_append PROPRIO_HISTORY_SIZE (proprio_history st) current_proprio)
       st) ;;
   st <- get ;;
   h <- lift (pad_history PROPRIO_HISTORY_SIZE (proprio_history st)) ;;
   modify (set_proprio_history h))%py.

(** One iteration of the loop over [response['result']]: the loop carries
    [current_pose] and [last_finger_state]. *)
Definition decode_entry (bbox : BBox) (delta_action : ndarray)
    (loc : ndarray * float) : Py Agent (ndarray * float) :=
  let '(current_pose, last_finger_state) := loc in
  (abs_action <- lift (delta_to_abs delta_action current_pose) ;;
   let current_pose' := slice 0 6 abs_action in
   g <- lift (getitem abs_action 6) ;;
   (if (g =? 0)%float || (g =? last_finger_state)%float then
      pred_actions_append (abs_action, bbox)
    else
      arm_action <- lift (setitem abs_action 6 0%float) ;;
      pred_actions_append (arm_action, bbox) ;;
      for_range GRIP_TRANSITION_ACTIONS
        (pred_actions_append (abs_action, bbox)) ;;
      modify (set_finger_state g)) ;;
   ret (current_pose',
        if negb (g =? 0)%float then g else last_finger_state))%py.

(** [for delta_action in response['result']: ...] *)
Fixpoint decode_chunk (bbox : BBox) (chunk : list ndarray)
    (loc : ndarray * float) : Py Agent (ndarray * float) :=
  match chunk with
  | [] => ret loc
  | delta_action :: rest =>
      (loc' <- decode_entry bbox delta_action loc ;;
       decode_chunk bbox rest loc')%py
  end.

Definition make_request (obs : Obs) (st : Agent) : Request :=
  {| req_front_view_image := [rev (front_view_image obs)];
     req_side_view_image := [rev (side_view_image obs)];
     req_proprio_array := proprio_history st;
     req_text := instruction st |}.

(** [_post_and_get] (the [debug] branch only prints) *)
Definition post_and_get (obs : Obs) (net : Net) : Py Agent unit :=
  (st <- get ;;
   let data := make_request obs st in
   send_pyobj net data ;;
   response <- recv_pyobj net ;;
   bbox <- lift (response_bbox response) ;;
   st <- get ;;
   let last_finger_state := finger_state st in
   last_frame <- lift (deque_last (proprio_history st)) ;;
   let current_pose := slice 0 6 last_frame in
   chunk <- lift (response_result response) ;;
   decode_chunk bbox chunk (current_pose, last_finger_state) ;;
   ret tt)%py.

(** The first half of [step]: update the history, refill an empty queue. *)
Definition refill_phase (obs : Obs) (net : Net) : Py Agent unit :=
  (process_proprio obs ;;
   st <- get ;;
   if length (pred_actions st) =? 0 then post_and_get obs net
   else ret tt)%py.

(** The second half of [step]: pop the head action and flip its gripper. *)
Definition emit_phase : Py Agent (ndarray * BBox) :=
  (' (action, bbox) <- pred_actions_popleft ;;
   g <- lift (getitem action 6) ;;
   action' <- lift (setitem action 6 (- g)%float) ;;
   ret (action', bbox))%py.

(** [step] *)
Definition step (obs : Obs) (net : Net) : Py Agent (ndarray * BBox) :=
  (refill_phase obs net ;; emit_phase)%py.

(** A caller driving the agent tick after tick, going on after a tick
    that raised (the caller may retry). *)
Fixpoint run (ticks : list (Obs * Net)) (st : Agent) : Agent :=
  match ticks with
  | [] => st
  | (obs, net) :: rest => run rest (snd (step obs net st))
  end.

(** [run_episode] of benchmark_runner.py: no handler, the first exception
    ends the episode. *)
Fixpoint episode (ticks : list (Obs * Net)) (st : Agent) : Agent :=
  match ticks with
  | [] => st
  | (obs, net) :: rest =>
      match step obs net st with
      | (Ok _, st') => episode rest st'
      | (Raise _, st') => st'
      end
  end.
(** The agent once [send_pyobj] and [recv_pyobj] have both been called
    in [_post_and_get]. *)
Definition exchanged (obs : Obs) (net : Net) (st : Agent) : Agent :=
  log_event (EvRecv (reply net))
    (log_event (EvSend (make_request obs st)) st).

(** States of an agent driven by [step] from its construction. *)
Inductive reachable : Agent -> Prop :=
| reachable_init (instr : string) : reachable (initialize_state instr)
| reachable_step (st : Agent) (obs : Obs) (net : Net) :
    reachable st -> reachable (snd (step obs net st)).

(** Every stored frame and every queued action has seven scalars. *)
Definition well_shaped (st : Agent) : Prop :=
  Forall (fun f => length f = 7) (proprio_history st)
  /\ Forall (fun x => length (fst x) = 7) (pred_actions st).
(** Decoding touches the queue, by appending seven-scalar actions, and
    the gripper state; nothing else. *)
Definition extends (st st' : Agent) : Prop :=
  wire st' = wire st
  /\ proprio_history st' = proprio_history st
  /\ instruction st' = instruction st
  /\ exists acts, pred_actions st' = pred_actions st ++ acts
                  /\ Forall (fun x => length (fst x) = 7) acts.
(** What a tick adds to the log: one send and one receive when the
    observation is usable, the queue is empty and the socket takes the
    request; nothing otherwise. *)
Definition round (obs : Obs) (net : Net) (st : Agent) : list Event :=
  if (length (robot0_joint_pos obs) =? 7)
     && (length (pred_actions st) =? 0) && send_ok net
  then [EvSend (make_request obs (snd (process_proprio obs st)));
        EvRecv (reply net)]
  else [].
End Agent.

(** ** Log predicates *)

(** The log is a sequence of rounds, each one send followed by one
    receive. *)
Fixpoint alternating (log : list Event) : bool :=
  match log with
  | [] => true
  | EvSend _ :: EvRecv _ :: rest => alternating rest
  | _ => false
  end.

(** No receive of the log timed out. *)
Definition all_answered (log : list Event) : bool :=
  forallb (fun e => match e with EvRecv None => false | _ => true end) log.

(** No receive of the log timed out, the last event possibly apart. *)
Definition answered_but_last (log : list Event) : bool :=
  all_answered (removelast log).

(** [last n l]: the last [n] elements of [l], all of it when it is shorter. *)
Definition lastn {A} (n : nat) (l : list A) : list A :=
  skipn (length l - n) l.

(** ** A test double of the collaborators, and sample inputs

    Used only to run the model on concrete inputs: rotations are kept as
    their three angles and composed by adding them, an infinite angle makes
    [euler2mat] raise ValueError, and the kinematics reads the pose off the
    first six joint values. *)

Module Mock.
Definition add3 (a b : float * float * float) : float * float * float :=
  let '(a0, a1, a2) := a in
  let '(b0, b1, b2) := b in
  ((a0 + b0)%float, (a1 + b1)%float, (a2 + b2)%float).

Definition take3 (i : nat) (q : list float) : float * float * float :=
  (nth i q 0%float, nth (i + 1) q 0%float, nth (i + 2) q 0%float).

Definition collaborators : Collaborators :=
  {| Mat := float * float * float;
     Quat := float * float * float;
     euler2mat := fun a b c =>
       if is_infinity a || is_infinity b || is_infinity c
       then Raise ValueError
       else Ok (a, b, c);
     mat2euler := fun m => m;
     matmul := add3;
     quat2euler := fun q => q;
     fk_position := take3 0;
     fk_quaternion := take3 3 |}.

Definition bbox0 : BBox :=
  [[10; 20; 110; 120]; [15; 25; 115; 125]]%float.

Definition obs0 : Obs :=
  {| robot0_joint_pos := [0.5; 0; 0.25; 0; 0; 0; 0]%float;
     front_view_image := [[[1; 2; 3]]; [[4; 5; 6]]];
     side_view_image := [[[7; 8; 9]]] |}.

Definition agent0 : Agent := initialize_state "pick up apple".

Definition net_of (r : Response) : Net :=
  {| send_ok := true; reply := Some r |}.

(** One delta action that asks for no gripper change. *)
Definition resp_move : Response :=
  {| resp_result := Some [[0.5; 0; 0; 0; 0; 0; 0]%float];
     resp_debug := Some (Some bbox0) |}.

(** Close the gripper, then an entry with too few scalars. *)
Definition resp_ragged : Response :=
  {| resp_result := Some [[0; 0; 0; 0; 0; 0; -1]; [0; 0; 0]]%float;
     resp_debug := Some (Some bbox0) |}.

Definition resp_empty_chunk : Response :=
  {| resp_result := Some []; resp_debug := Some (Some bbox0) |}.

Definition resp_no_result : Response :=
  {| resp_result := None; resp_debug := Some (Some bbox0) |}.

Definition resp_no_bbox : Response :=
  {| resp_result := Some [[0.5; 0; 0; 0; 0; 0; 0]%float];
     resp_debug := Some None |}.

Definition net_timeout : Net := {| send_ok := true; reply := None |}.
End Mock.

(** ** Driving the agent, and the gripper commands of a chunk *)

Section Driver.
Context {C : Collaborators}.

(** A caller that ticks the agent and keeps what every tick returned or
    raised. *)
Fixpoint run_collect (ticks : list (Obs * Net)) (st : Agent)
  : list (result (ndarray * BBox)) * Agent :=
  match ticks with
  | [] => ([], st)
  | (obs, net) :: rest =>
      let (r, st') := step obs net st in
      let (rs, st'') := run_collect rest st' in
      (r :: rs, st'')
  end.
End Driver.

(** What [step] returns for a queued action: the gripper scalar negated. *)
Definition emitted (x : ndarray * BBox) : ndarray * BBox :=
  (slice 0 6 (fst x) ++ [(- nth 6 (fst x) 0)%float], snd x).

(** The gripper scalar of a delta action. *)
Definition gripper (delta_action : ndarray) : float := nth 6 delta_action 0%float.

(** The last gripper scalar that is not zero, [last] when there is none. *)
Definition last_nonzero (gs : list float) (last : float) : float :=
  fold_left (fun l g => if negb (g =? 0)%float then g else l) gs last.

(** How many of the gripper scalars are not zero and differ from the
    last one before them that is not zero ([last] at the start). *)
Fixpoint count_transitions (gs : list float) (last : float) : nat :=
  match gs with
  | [] => 0
  | g :: rest =>
      (if (g =? 0)%float || (g =? last)%float then 0 else 1)
      + count_transitions rest (if negb (g =? 0)%float then g else last)
  end.

(** A request as [_post_and_get] builds it for an agent constructed with
    [instr]: one flipped image per view, four frames of seven scalars, the
    instruction. *)
Definition request_ok (instr : string) (e : Event) : Prop :=
  match e with
  | EvSend data =>
      req_text data = instr
      /\ length (req_front_view_image data) = 1
      /\ length (req_side_view_image data) = 1
      /\ length (req_proprio_array data) = 4
      /\ Forall (fun f => length f = 7) (req_proprio_array data)
  | EvRecv _ => True
  end.

(** ** Strings

    A Python [str] is modelled by a [string] whose characters are the code
    points below U+0100. *)

(** [c.isspace()] for one character: U+0009..000D, U+001C..0020, U+0085,
    U+00A0. *)
Definition py_isspace (c : ascii) : bool :=
  let n := nat_of_ascii c in
  ((9 <=? n) && (n <=? 13)) || ((28 <=? n) && (n <=? 32))
  || (n =? 133) || (n =? 160).

Fixpoint lstrip_chars (l : list ascii) : list ascii :=
  match l with
  | [] => []
  | c :: r => if py_isspace c then lstrip_chars r else l
  end.

(** [s.strip()] *)
Definition py_strip (s : string) : string :=
  string_of_list_ascii
    (rev (lstrip_chars (rev (lstrip_chars (list_ascii_of_string s))))).

(** [s.replace(old, new)] for one-character [old] and [new]. *)
Fixpoint replace_char (old new : ascii) (s : string) : string :=
  match s with
  | EmptyString => EmptyString
  | String c r =>
      String (if Ascii.eqb c old then new else c) (replace_char old new r)
  end.

(** [s.split(sep)] for a one-character [sep]: never an empty list. *)
Fixpoint split_char (sep : ascii) (s : string) : list string :=
  match s with
  | EmptyString => [EmptyString]
  | String c r =>
      if Ascii.eqb c sep then EmptyString :: split_char sep r
      else match split_char sep r with
           | h :: t => String c h :: t
           | [] => [String c EmptyString]
           end
  end.

(** [sub in s] *)
Fixpoint contains (sub s : string) : bool :=
  String.prefix sub s
  || match s with
     | EmptyString => false
     | String _ r => contains sub r
     end.

Definition has_char (c : ascii) (s : string) : bool :=
  existsb (Ascii.eqb c) (list_ascii_of_string s).

(** ** [RemoteAgent._validate_inputs] *)

Definition validate_inputs (instruction : string) (port : Z) : result unit :=
  if String.eqb (py_strip instruction) "" then Raise ValueError
  else if negb ((1 <=? port)%Z && (port <=? 65535)%Z) then Raise ValueError
  else Ok tt.

(** ** benchmark_runner.py: [process_initial_state] *)

(** [np.zeros(n)] *)
Definition np_zeros (n : Z) : result ndarray :=
  if (n <? 0)%Z then Raise ValueError
  else Ok (repeat 0%float (Z.to_nat n)).

(** [a[i:j] = b] for [0 <= i <= j]: the shapes must agree, or [b] has one
    element, which is broadcast. *)
Definition np_setslice (a : ndarray) (i j : nat) (b : ndarray)
  : result ndarray :=
  let n := length (slice i j a) in
  if length b =? n then Ok (firstn i a ++ b ++ skipn (i + n) a)
  else if length b =? 1
       then Ok (firstn i a ++ repeat (hd 0%float b) n ++ skipn (i + n) a)
       else Raise ValueError.

Definition process_initial_state (state : ndarray) (task_name test_set : string)
    (object_num : nat) : result ndarray :=
  if String.eqb test_set "libero_object" then
    let num := length state in
    match np_zeros (Z.of_nat num - 13) with
    | Raise e => Raise e
    | Ok new_state =>
        match np_setslice new_state 0 17 (slice 0 17 state) with
        | Raise e => Raise e
        | Ok new_state =>
            np_setslice new_state 17 (length new_state)
              (slice 24 (num - 6) state)
        end
    end
  else if contains "LIVING_ROOM_SCENE1" task_name
          || contains "LIVING_ROOM_SCENE2" task_name then
    let num := length state in
    match np_zeros (Z.of_nat num - 13) with
    | Raise e => Raise e
    | Ok new_state =>
        np_setslice new_state 0 (1 + 9 + 7 * object_num)
          (slice 0 (1 + 9 + 7 * object_num) state)
    end
  else Ok state.

(** ** parallel_eval.py: the seeds of each process *)

(** [l[skip::step]] for [step >= 1]. *)
Fixpoint stride {A} (step skip : nat) (l : list A) : list A :=
  match l with
  | [] => []
  | x :: r =>
      match skip with
      | 0 => x :: stride step (step - 1) r
      | S k => stride step k r
      end
  end.

(** [list(range(trial_num)[i::parallel_env_num])] *)
Definition seed_list (trial_num parallel_env_num i : nat) : list nat :=
  stride parallel_env_num i (seq 0 trial_num).

(** ** misc/export_as_bddl.py and the object names of playground.py *)

Definition nl : string := String (ascii_of_nat 10) EmptyString.

(** [_normalize_object_name] *)
Definition normalize_object_name (name : string) : string :=
  replace_char " " "_" name.

Definition prefixed_name (name : string) : string :=
  ("objaverse_" ++ normalize_object_name name)%string.

Definition object_entries (object_names : list string) : list string :=
  map (fun name =>
         ("    " ++ prefixed_name name ++ "_1 - " ++ prefixed_name name)%string)
      object_names.

(** [_create_bddl_objects] *)
Definition create_bddl_objects (object_names : list string) : string :=
  ("(:objects" ++ nl ++ String.concat nl (object_entries object_names)
   ++ nl ++ "    )")%string.

Definition init_entries (object_names : list string) : list string :=
  map (fun name =>
         ("    (On " ++ prefixed_name name
          ++ "_1 floor_target_object_region)")%string)
      object_names.

(** [_create_bddl_init_state] *)
Definition create_bddl_init_state (object_names : list string) : string :=
  ("(:init" ++ nl ++ String.concat nl (init_entries object_names)
   ++ nl ++ "    )")%string.

(** The instance [export_as_bddl_file] names as object of interest and in
    the goal. *)
Definition target_instance (target_object_name : string) : string :=
  ("objaverse_" ++ normalize_object_name target_object_name ++ "_1")%string.

(** [extract_object_type] of custom_objects.py, and the expression
    playground.py maps over the sampled asset names:
    ["_".join(obj_name.split("_")[:-1])]. *)
Definition extract_object_type (obj_name : string) : string :=
  String.concat "_" (removelast (split_char "_" obj_name)).

(** The target playground.py derives from an object name:
    [name.replace('_', ' ')]. *)
Definition target_of (object_name : string) : string :=
  replace_char "_" " " object_name.

(** ** misc/logger.py: the names of the videos *)

Fixpoint prefixb (p l : list ascii) : bool :=
  match p, l with
  | [], _ => true
  | a :: p', b :: l' => Ascii.eqb a b && prefixb p' l'
  | _ :: _, [] => false
  end.

(** The scan of [s.replace(old, new)] for an [old] that is not empty, left
    to right: [skip] characters of a match are still to be dropped. *)
Fixpoint replace_chars (old new : list ascii) (skip : nat) (l : list ascii)
  : list ascii :=
  match l with
  | [] => []
  | c :: r =>
      match skip with
      | S k => replace_chars old new k r
      | 0 =>
          if prefixb old l
          then new ++ replace_chars old new (length old - 1) r
          else c :: replace_chars old new 0 r
      end
  end.

(** [s.replace(old, new)], [old] not empty. *)
Definition py_replace (old new s : string) : string :=
  string_of_list_ascii
    (replace_chars (list_ascii_of_string old) (list_ascii_of_string new) 0
       (list_ascii_of_string s)).

(** [s.endswith(suffix)] *)
Definition py_endswith (suffix s : string) : bool :=
  prefixb (rev (list_ascii_of_string suffix)) (rev (list_ascii_of_string s)).

(** [s[:-k]] for [k > 0] *)
Definition drop_last (k : nat) (s : string) : string :=
  string_of_list_ascii
    (firstn (length (list_ascii_of_string s) - k) (list_ascii_of_string s)).

(** A [VideoLogger]: [video_writer] counts the frames written to the open
    writer, [commands] are the shell commands run through [os.system]. *)
Record VideoLogger : Type := {
  save_dir : string;
  video_writer : option nat;
  video_name : option string;
  new_video_name : option string;
  commands : list string
}.

(** [VideoLogger.__init__] *)
Definition new_logger (dir : string) : VideoLogger :=
  {| save_dir := dir; video_writer := None; video_name := None;
     new_video_name := None; commands := [] |}.

(** [start_recording]; [task_id] and [seed] are given as the text the
    f-string prints for them. *)
Definition start_recording (test_set task_id object_name seed : string)
    (lg : VideoLogger) : VideoLogger :=
  let object_name_with_underline := replace_char " " "_" object_name in
  let name :=
    (save_dir lg ++ "/" ++ test_set ++ "_" ++ task_id ++ "_pick_up_"
     ++ object_name_with_underline ++ "_" ++ seed ++ ".mp4")%string in
  {| save_dir := save_dir lg;
     video_writer := Some 0;
     video_name := Some name;
     new_video_name := Some (py_replace ".mp4" "_x264.mp4" name);
     commands := commands lg |}.

(** [log_frame]: the guard, and one more frame written. *)
Definition log_frame (lg : VideoLogger) : result VideoLogger :=
  match video_writer lg with
  | None => Raise RuntimeError
  | Some frames =>
      Ok {| save_dir := save_dir lg;
            video_writer := Some (S frames);
            video_name := video_name lg;
            new_video_name := new_video_name lg;
            commands := commands lg |}
  end.

(** [stop_recording], with [_convert_video]; the removal of the original
    file is left out. *)
Definition stop_recording (success : bool) (lg : VideoLogger) : VideoLogger :=
  match video_writer lg, new_video_name lg, video_name lg with
  | Some _, Some new_name, Some name =>
      let new_name' :=
        py_replace ".mp4" (if success then "_success.mp4" else "_fail.mp4")
          new_name in
      {| save_dir := save_dir lg;
         video_writer := None;
         video_name := Some name;
         new_video_name := Some new_name';
         commands :=
           commands lg
           ++ [("ffmpeg -i " ++ name ++ " -vcodec libx264 " ++ new_name'
                ++ " -y > /dev/null 2>&1")%string] |}
  | _, _, _ => lg
  end.

(** ** misc/get_success_rate_per_object.py: one file name

    The body of the loop over the file names: [None] when the name is
    skipped, otherwise the category and whether the name says success. *)
Definition classify_video (video : string) : result (option (string * bool)) :=
  if negb (py_endswith ".mp4" video) then Ok None
  else
    let name_without_ext := drop_last 4 video in
    let tagged :=
      if py_endswith "_success" name_without_ext
      then Some (true, drop_last 8 name_without_ext)
      else if py_endswith "_fail" name_without_ext
           then Some (false, drop_last 5 name_without_ext)
           else None in
    match tagged with
    | None => Ok None
    | Some (success, name_parts) =>
        let name_parts :=
          if py_endswith "_x264" name_parts then drop_last 6 name_parts
          else name_parts in
        match nth_error (split_char "_" name_parts) 4 with
        | Some category => Ok (Some (category, success))
        | None => Raise IndexError
        end
    end.

(** ** benchmark_runner.py: [stabilize_scene] and [run_episode]

    The simulator is a collaborator: [env_step] is [env.step], returning
    the next observation and whether the task is done (the reward and the
    info are not used). *)

Section Episode.
Context {C : Collaborators}.
Variable Env : Type.
Variable env_step : Env -> ndarray -> (Obs * bool) * Env.

(** [a[-1] = v] *)
Definition set_last (a : ndarray) (v : float) : result ndarray :=
  match a with
  | [] => Raise IndexError
  | _ :: _ => Ok (removelast a ++ [v])
  end.

(** [stabilize_scene]: returns the last observation, and the simulator as
    the steps left it. *)
Fixpoint stabilize_scene (steps : nat) (env : Env) (obs : Obs)
  : Py Agent (Obs * Env) :=
  match steps with
  | 0 => ret (obs, env)
  | S n =>
      (action <- get_current_proprio obs ;;
       action <- lift (set_last action (-1)%float) ;;
       let '((obs', _), env') := env_step env action in
       stabilize_scene n env' obs')%py
  end.

(** The simulator stepped [steps] times with the measured pose and the
    gripper scalar -1. *)
Fixpoint hold_pose (steps : nat) (env : Env) (obs : Obs) : Obs * Env :=
  match steps with
  | 0 => (obs, env)
  | S n =>
      let '((obs', _), env') := env_step env (proprio_frame obs (-1)%float) in
      hold_pose n env' obs'
  end.

(** An agent computation run beside the logger. *)
Definition with_agent {A} (c : Py Agent A) : Py (Agent * VideoLogger) A :=
  fun s => let (r, a) := c (fst s) in (r, (a, snd s)).

(** A logger computation run beside the agent. *)
Definition with_logger (f : VideoLogger -> result VideoLogger)
  : Py (Agent * VideoLogger) unit :=
  fun s => match f (snd s) with
           | Ok lg => (Ok tt, (fst s, lg))
           | Raise e => (Raise e, s)
           end.

(** The loop of [run_episode]: [left] iterations to go, [tick] done so far;
    [net_at] is what the transport does at each tick. *)
Fixpoint episode_loop (net_at : nat -> Net) (left tick : nat) (env : Env)
    (obs : Obs) : Py (Agent * VideoLogger) unit :=
  match left with
  | 0 => modify (fun s => (fst s, stop_recording false (snd s)))
  | S n =>
      (' (action, bbox) <- with_agent (step obs (net_at tick)) ;;
       let '((obs', done), env') := env_step env action in
       with_logger log_frame ;;
       if done
       then modify (fun s => (fst s, stop_recording true (snd s)))
       else episode_loop net_at n (S tick) env' obs')%py
  end.

(** [run_episode] *)
Definition run_episode (net_at : nat -> Net) (env : Env) (initial_obs : Obs)
    (max_steps stabilize_steps : nat) : Py (Agent * VideoLogger) unit :=
  (' (obs, env) <- with_agent (stabilize_scene stabilize_steps env initial_obs) ;;
   episode_loop net_at max_steps 0 env obs)%py.
End Episode.

(** A recording is open: the writer and both names are set. *)
Definition recording (lg : VideoLogger) : Prop :=
  video_writer lg <> None /\ new_video_name lg <> None
  /\ video_name lg <> None.

(** What every agent constructed with [instr] satisfies, whatever the ticks. *)
Definition session_inv (instr : string) (st : Agent) : Prop :=
  instruction st = instr
  /\ length (proprio_history st) <= PROPRIO_HISTORY_SIZE
  /\ well_shaped st
  /\ Forall (request_ok instr) (wire st).

(** More sample inputs. *)
Module Sample.
(** Move, close the gripper, move again with the gripper command repeated. *)
Definition resp_grasp : Response :=
  {| resp_result := Some [[0.5; 0; 0; 0; 0; 0; 0];
                          [0; 0; -0.25; 0; 0; 0; -1];
                          [0; 0; 0.25; 0; 0; 0; -1]]%float;
     resp_debug := Some (Some Mock.bbox0) |}.

(** The agent after its first tick on [resp_grasp]: six actions queued. *)
Definition agent1 : Agent :=
  snd (@step Mock.collaborators Mock.obs0 (Mock.net_of resp_grasp) Mock.agent0).

(** A simulator that counts its steps and reports the task done at the
    third. *)
Definition env_step (n : nat) (action : ndarray) : Obs * bool * nat :=
  ((Mock.obs0, 2 <=? n), S n).

Definition logger0 : VideoLogger :=
  start_recording "" "" "coffee mug" "42" (new_logger "videos").

Definition state10 : ndarray := repeat 1%float 40.
End Sample.

(** * Properties *)

(** ** The proprioception buffer *)

Section BufferFacts.
Context {A : Type}.

Lemma pad_history_full (maxlen : nat) (d : list A) :
  maxlen <= length d -> pad_history maxlen d = Ok d.
Proof.
  intros Hlen.
  rewrite pad_history_unfold_eq; unfold pad_history_unfold.
  destruct (lt_dec (length d) maxlen); [lia | reflexivity].
Qed.

Lemma buffer_update_first (f : A) :
  buffer_update 4 [] f = Ok [f; f; f; f].
Proof. reflexivity. Qed.

Lemma buffer_update_primed (d : list A) (f : A) :
  length d = 4 -> buffer_update 4 d f = Ok (tl d ++ [f]).
Proof.
  intros Hlen. unfold buffer_update, deque_append.
  rewrite Hlen; simpl.
  apply pad_history_full.
  rewrite length_app; simpl.
  destruct d; simpl in *; lia.
Qed.

Lemma buffer_updates_primed (fs d : list A) :
  length d = 4 ->
  buffer_updates 4 d fs = Ok (skipn (length fs) (d ++ fs)).
Proof.
  revert d; induction fs as [|f fs IH]; intros d Hlen.
  - simpl. rewrite app_nil_r. reflexivity.
  - cbn [buffer_updates]. rewrite (buffer_update_primed d f Hlen).
    rewrite IH.
    + destruct d as [|x d]; [discriminate|].
      simpl. rewrite <- app_assoc. reflexivity.
    + destruct d as [|x d]; [discriminate|].
      simpl in *. rewrite length_app; simpl; lia.
Qed.

Lemma deque_last_snoc (d : list A) (x : A) : deque_last (d ++ [x]) = Ok x.
Proof. unfold deque_last. rewrite rev_unit. reflexivity. Qed.

Lemma pad_history_snoc (maxlen : nat) (n : nat) :
  forall (d : list A) (x : A),
    maxlen - length (d ++ [x]) = n ->
    pad_history maxlen (d ++ [x]) = Ok ((d ++ [x]) ++ repeat x n).
Proof.
  induction n as [|n IH]; intros d x Hn.
  - simpl. rewrite app_nil_r. apply pad_history_full. lia.
  - rewrite pad_history_unfold_eq; unfold pad_history_unfold.
    destruct (lt_dec (length (d ++ [x])) maxlen) as [Hlt|Hge]; [|lia].
    cbn [pad_history_unfold_clause_1].
    rewrite deque_last_snoc; simpl.
    unfold deque_append.
    destruct (Nat.eqb_spec maxlen 0) as [|_]; [lia|].
    destruct (Nat.ltb_spec (length (d ++ [x])) maxlen) as [_|]; [|lia].
    rewrite (IH (d ++ [x]) x).
    + rewrite <- (app_assoc (d ++ [x]) [x]). reflexivity.
    + repeat rewrite length_app in *. simpl in *. lia.
Qed.

Lemma deque_append_snoc (maxlen : nat) (d : list A) (x : A) :
  0 < maxlen -> exists d', deque_append maxlen d x = d' ++ [x].
Proof.
  intros Hpos. unfold deque_append.
  destruct (Nat.eqb_spec maxlen 0); [lia|].
  destruct (length d <? maxlen); eauto.
Qed.

(** An update never raises, and leaves the frame at the tail. *)
Lemma buffer_update_total (maxlen : nat) (d : list A) (f : A) :
  0 < maxlen ->
  exists h, buffer_update maxlen d f = Ok h /\ deque_last h = Ok f
            /\ (length d <= maxlen -> length h = maxlen)
            /\ (forall P : A -> Prop, Forall P d -> P f -> Forall P h).
Proof.
  intros Hpos. unfold buffer_update.
  destruct (deque_append_snoc maxlen d f Hpos) as [d' Hd'].
  assert (Hall : forall P : A -> Prop, Forall P d -> P f -> Forall P (d' ++ [f])).
  { intros P Hd Hf. rewrite <- Hd'. unfold deque_append.
    destruct (maxlen =? 0); [exact Hd|].
    destruct (length d <? maxlen); apply Forall_app; split;
      try (repeat constructor; exact Hf); try exact Hd.
    destruct d; [constructor|]. inversion Hd; assumption. }
  assert (Hlen : length d <= maxlen -> length (d' ++ [f]) <= maxlen).
  { intros Hle. rewrite <- Hd'. unfold deque_append.
    destruct (Nat.eqb_spec maxlen 0); [lia|].
    destruct (Nat.ltb_spec (length d) maxlen);
      rewrite length_app; simpl; [lia|].
    destruct d; simpl in *; lia. }
  rewrite Hd'.
  rewrite (pad_history_snoc maxlen _ d' f eq_refl).
  eexists; split; [reflexivity|]. split; [|split].
  - unfold deque_last. rewrite rev_app_distr, rev_repeat.
    destruct (maxlen - length (d' ++ [f])); simpl.
    + rewrite rev_unit. reflexivity.
    + reflexivity.
  - intros Hle. specialize (Hlen Hle).
    rewrite length_app, repeat_length. lia.
  - intros P Hd Hf. apply Forall_app; split; [apply Hall; assumption|].
    apply Forall_forall. intros y Hy. apply repeat_spec in Hy. subst y.
    exact Hf.
Qed.
End BufferFacts.

(** ** The agent *)

Ltac py_unfold :=
  unfold bind, ret, lift, get, modify in *; cbn beta iota in *.

Section AgentFacts.
Context {C : Collaborators}.

Lemma of_tuple3_length (t : float * float * float) :
  length (of_tuple3 t) = 3.
Proof. destruct t as [[x y] z]. reflexivity. Qed.

Lemma proprio_frame_length (obs : Obs) (g : float) :
  length (proprio_frame obs g) = 7.
Proof.
  unfold proprio_frame. rewrite !length_app, !of_tuple3_length. reflexivity.
Qed.


Lemma get_current_proprio_eq (obs : Obs) (st : Agent) :
  get_current_proprio obs st =
  (if length (robot0_joint_pos obs) =? 7
   then Ok (proprio_frame obs (finger_state st))
   else Raise RuntimeError, st).
Proof.
  unfold get_current_proprio, reshape_1_7, proprio_frame. py_unfold.
  destruct (length (robot0_joint_pos obs) =? 7); reflexivity.
Qed.

Lemma process_proprio_raise (obs : Obs) (st : Agent) :
  (length (robot0_joint_pos obs) =? 7) = false ->
  process_proprio obs st = (Raise RuntimeError, st).
Proof.
  intros Hq. unfold process_proprio.
  unfold bind at 1. rewrite get_current_proprio_eq, Hq. reflexivity.
Qed.

Lemma process_proprio_ok (obs : Obs) (st : Agent) :
  (length (robot0_joint_pos obs) =? 7) = true ->
  exists h,
    buffer_update PROPRIO_HISTORY_SIZE (proprio_history st)
      (proprio_frame obs (finger_state st)) = Ok h
    /\ deque_last h = Ok (proprio_frame obs (finger_state st))
    /\ process_proprio obs st = (Ok tt, set_proprio_history h st).
Proof.
  intros Hq.
  assert (Hpos : 0 < PROPRIO_HISTORY_SIZE) by (unfold PROPRIO_HISTORY_SIZE; lia).
  destruct (buffer_update_total PROPRIO_HISTORY_SIZE (proprio_history st)
              (proprio_frame obs (finger_state st)) Hpos)
    as (h & Hh & Hlast & _ & _).
  exists h. split; [exact Hh|]. split; [exact Hlast|].
  unfold process_proprio.
  unfold bind at 1. rewrite get_current_proprio_eq, Hq.
  py_unfold. simpl.
  unfold buffer_update in Hh. rewrite Hh. reflexivity.
Qed.

(** *** Arrays *)

Lemma setitem_spec (a : ndarray) (i : nat) (g v : float) :
  getitem a i = Ok g ->
  setitem a i v = Ok (firstn i a ++ v :: skipn (S i) a).
Proof.
  unfold getitem. revert i.
  induction a as [|x a IH]; intros [|i] H; simpl in *; try discriminate.
  - reflexivity.
  - rewrite IH; [reflexivity|exact H].
Qed.

Lemma getitem_length (a : ndarray) (i : nat) (g : float) :
  getitem a i = Ok g -> i < length a.
Proof.
  unfold getitem. intros H. apply nth_error_Some.
  destruct (nth_error a i); [discriminate|discriminate].
Qed.

Lemma zip_add_length (a b : ndarray) :
  length (zip_add a b) = Nat.min (length a) (length b).
Proof.
  revert b; induction a as [|x a IH]; intros [|y b]; simpl; auto.
Qed.

Lemma np_add_length (a b r : ndarray) :
  np_add a b = Ok r -> length r <= Nat.max (length a) (length b).
Proof.
  unfold np_add.
  destruct (length a =? length b).
  - intros H; injection H as <-. rewrite zip_add_length. lia.
  - destruct a as [|x [|x' a]]; destruct b as [|y [|y' b]];
      intros H; try discriminate; injection H as <-; simpl;
      rewrite ?length_map; simpl; lia.
Qed.

Lemma slice_length (i j : nat) (a : ndarray) : length (slice i j a) <= j - i.
Proof. unfold slice. apply firstn_le_length. Qed.

(** *** [_delta_to_abs] *)

Lemma delta_to_abs_long (d0 d1 d2 d3 d4 d5 g c0 c1 c2 c3 c4 c5 : float)
    (dr cr : ndarray) :
  delta_to_abs (d0 :: d1 :: d2 :: d3 :: d4 :: d5 :: g :: dr)
    (c0 :: c1 :: c2 :: c3 :: c4 :: c5 :: cr) =
  match euler2mat c3 c4 c5 with
  | Raise e => Raise e
  | Ok current_rot =>
      match euler2mat d3 d4 d5 with
      | Raise e => Raise e
      | Ok delta_rot =>
          Ok ([c0 + d0; c1 + d1; c2 + d2]%float
              ++ of_tuple3 (mat2euler (matmul delta_rot current_rot))
              ++ [g])
      end
  end.
Proof.
  unfold delta_to_abs. cbn [slice skipn firstn Nat.sub star3].
  destruct (euler2mat c3 c4 c5); [|reflexivity].
  destruct (euler2mat d3 d4 d5); reflexivity.
Qed.

(** What [_delta_to_abs] returns, when it returns. *)
Lemma delta_to_abs_inv (delta pose a : ndarray) :
  delta_to_abs delta pose = Ok a ->
  exists d0 d1 d2 d3 d4 d5 g dr c0 c1 c2 c3 c4 c5 cr current_rot delta_rot,
    delta = d0 :: d1 :: d2 :: d3 :: d4 :: d5 :: g :: dr
    /\ pose = c0 :: c1 :: c2 :: c3 :: c4 :: c5 :: cr
    /\ euler2mat c3 c4 c5 = Ok current_rot
    /\ euler2mat d3 d4 d5 = Ok delta_rot
    /\ a = [c0 + d0; c1 + d1; c2 + d2]%float
           ++ of_tuple3 (mat2euler (matmul delta_rot current_rot)) ++ [g].
Proof.
  intros H.
  destruct pose as [|c0 [|c1 [|c2 [|c3 [|c4 [|c5 cr]]]]]];
    try (unfold delta_to_abs in H; cbn in H; discriminate).
  destruct delta as [|d0 [|d1 [|d2 [|d3 [|d4 [|d5 [|g dr]]]]]]];
    try (unfold delta_to_abs in H;
         repeat (cbn in H;
                 match type of H with
                 | context [match euler2mat ?x ?y ?z with _ => _ end] =>
                     destruct (euler2mat x y z)
                 end);
         cbn in H; discriminate).
  rewrite delta_to_abs_long in H.
  destruct (euler2mat c3 c4 c5) as [rc|] eqn:Hc; [|discriminate].
  destruct (euler2mat d3 d4 d5) as [rd|] eqn:Hd; [|discriminate].
  injection H as <-.
  exists d0, d1, d2, d3, d4, d5, g, dr, c0, c1, c2, c3, c4, c5, cr, rc, rd.
  repeat split; assumption.
Qed.

(** What [_delta_to_abs] returns ends with the delta's gripper scalar, and
    has seven scalars as soon as it has a seventh. *)
Lemma delta_to_abs_shape (delta pose a : ndarray) :
  delta_to_abs delta pose = Ok a ->
  exists next_trans e g,
    a = next_trans ++ of_tuple3 e ++ [g]
    /\ getitem delta 6 = Ok g
    /\ length next_trans <= 3.
Proof.
  unfold delta_to_abs.
  destruct (star3 euler2mat (slice 3 6 pose)) as [rc|]; [|discriminate].
  destruct (star3 euler2mat (slice 3 6 delta)) as [rd|]; [|discriminate].
  destruct (np_add (slice 0 3 pose) (slice 0 3 delta)) as [nt|] eqn:Hadd;
    [|discriminate].
  destruct (getitem delta 6) as [g|]; [|discriminate].
  intros H; injection H as <-.
  exists nt, (mat2euler (matmul rd rc)), g. repeat split.
  apply np_add_length in Hadd.
  pose proof (slice_length 0 3 pose). pose proof (slice_length 0 3 delta).
  lia.
Qed.

Lemma delta_to_abs_length (delta pose a : ndarray) (g : float) :
  delta_to_abs delta pose = Ok a -> getitem a 6 = Ok g -> length a = 7.
Proof.
  intros Ha Hg.
  destruct (delta_to_abs_shape _ _ _ Ha) as (nt & e & g' & -> & _ & Hnt).
  apply getitem_length in Hg.
  rewrite !length_app, of_tuple3_length in *. simpl in *. lia.
Qed.


(** When [_delta_to_abs] returns, its result has seven scalars, the last
    of which is the delta's gripper scalar. *)
Lemma delta_to_abs_ok_gripper (delta pose a : ndarray) :
  delta_to_abs delta pose = Ok a ->
  exists g, getitem delta 6 = Ok g /\ getitem a 6 = Ok g /\ length a = 7.
Proof.
  intros H.
  destruct (delta_to_abs_inv _ _ _ H)
    as (d0 & d1 & d2 & d3 & d4 & d5 & g & dr & c0 & c1 & c2 & c3 & c4 & c5
        & cr & rc & rd & -> & -> & _ & _ & ->).
  exists g. destruct (mat2euler (matmul rd rc)) as [[e0 e1] e2].
  repeat split.
Qed.

(** *** One entry of the chunk *)

Lemma for_range_append (n : nat) (x : ndarray * BBox) (st : Agent) :
  for_range n (pred_actions_append x) st =
  (Ok tt, set_pred_actions (pred_actions st ++ repeat x n) st).
Proof.
  revert st; induction n as [|n IH]; intros st.
  - simpl. unfold ret, set_pred_actions. rewrite app_nil_r.
    destruct st; reflexivity.
  - cbn [for_range]. unfold bind, pred_actions_append at 1, modify.
    rewrite IH. unfold set_pred_actions; simpl.
    rewrite <- app_assoc. reflexivity.
Qed.

Lemma decode_entry_eq (bbox : BBox) (delta pose : ndarray) (last : float)
    (st : Agent) :
  decode_entry bbox delta (pose, last) st =
  match delta_to_abs delta pose with
  | Raise e => (Raise e, st)
  | Ok a =>
      match getitem a 6 with
      | Raise e => (Raise e, st)
      | Ok g =>
          if (g =? 0)%float || (g =? last)%float then
            (Ok (slice 0 6 a, if negb (g =? 0)%float then g else last),
             set_pred_actions (pred_actions st ++ [(a, bbox)]) st)
          else
            (Ok (slice 0 6 a, if negb (g =? 0)%float then g else last),
             set_finger_state g
               (set_pred_actions
                  (pred_actions st
                   ++ (firstn 6 a ++ [0%float], bbox) :: repeat (a, bbox) 4)
                  st))
      end
  end.
Proof.
  unfold decode_entry. py_unfold.
  destruct (delta_to_abs delta pose) as [a|e] eqn:Ha; [|reflexivity].
  destruct (getitem a 6) as [g|e] eqn:Hg; [|reflexivity].
  destruct ((g =? 0)%float || (g =? last)%float).
  - reflexivity.
  - rewrite (setitem_spec a 6 g 0%float Hg).
    pose proof (delta_to_abs_length _ _ _ _ Ha Hg) as Hlen.
    rewrite (skipn_all2 a) by lia.
    unfold pred_actions_append at 1, modify.
    rewrite for_range_append.
    unfold set_finger_state, set_pred_actions; simpl.
    rewrite <- app_assoc. reflexivity.
Qed.

Lemma decode_entry_raise (bbox : BBox) (delta : ndarray)
    (loc : ndarray * float) (st st' : Agent) (e : exn) :
  decode_entry bbox delta loc st = (Raise e, st') -> st' = st.
Proof.
  destruct loc as [pose last]. rewrite decode_entry_eq.
  destruct (delta_to_abs delta pose); [|congruence].
  destruct (getitem a 6); [|congruence].
  destruct (_ || _); discriminate.
Qed.

(** *** The whole chunk *)

Lemma decode_chunk_app (bbox : BBox) (c1 c2 : list ndarray) :
  forall (loc : ndarray * float) (st : Agent),
    decode_chunk bbox (c1 ++ c2) loc st =
    match decode_chunk bbox c1 loc st with
    | (Ok loc', st') => decode_chunk bbox c2 loc' st'
    | (Raise e, st') => (Raise e, st')
    end.
Proof.
  induction c1 as [|d c1 IH]; intros loc st; [reflexivity|].
  simpl. unfold bind.
  destruct (decode_entry bbox d loc st) as [[loc'|e] st']; [|reflexivity].
  apply IH.
Qed.

Lemma extends_refl (st : Agent) : extends st st.
Proof.
  repeat split. exists []. rewrite app_nil_r. split; constructor.
Qed.

Lemma extends_trans (st1 st2 st3 : Agent) :
  extends st1 st2 -> extends st2 st3 -> extends st1 st3.
Proof.
  intros (Hw & Hh & Hi & a1 & Hq & Ha1) (Hw' & Hh' & Hi' & a2 & Hq' & Ha2).
  repeat split; try congruence.
  exists (a1 ++ a2). rewrite Hq', Hq, app_assoc. split; [reflexivity|].
  apply Forall_app; split; assumption.
Qed.

Lemma decode_entry_extends (bbox : BBox) (delta : ndarray)
    (loc : ndarray * float) (st : Agent) :
  extends st (snd (decode_entry bbox delta loc st)).
Proof.
  destruct loc as [pose last]. rewrite decode_entry_eq.
  destruct (delta_to_abs delta pose) as [a|] eqn:Ha; [|apply extends_refl].
  destruct (getitem a 6) as [g|] eqn:Hg; [|apply extends_refl].
  pose proof (delta_to_abs_length _ _ _ _ Ha Hg) as Hlen.
  destruct (_ || _); unfold extends;
    cbn [snd set_pred_actions set_finger_state pred_actions wire
         proprio_history instruction];
    repeat split; eexists; (split; [reflexivity|]).
  - repeat constructor. exact Hlen.
  - constructor.
    + cbn [fst]. rewrite length_app, length_firstn, Hlen. reflexivity.
    + repeat constructor; exact Hlen.
Qed.

Lemma decode_chunk_extends (bbox : BBox) (chunk : list ndarray) :
  forall (loc : ndarray * float) (st : Agent),
    extends st (snd (decode_chunk bbox chunk loc st)).
Proof.
  induction chunk as [|d chunk IH]; intros loc st; [apply extends_refl|].
  simpl. unfold bind.
  pose proof (decode_entry_extends bbox d loc st) as H1.
  destruct (decode_entry bbox d loc st) as [[loc'|e] st']; simpl in *.
  - eapply extends_trans; [exact H1|apply IH].
  - exact H1.
Qed.

(** *** [_post_and_get] *)

Lemma post_and_get_eq (obs : Obs) (net : Net) (st : Agent) :
  post_and_get obs net st =
  if send_ok net then
    match reply net with
    | None => (Raise Again, exchanged obs net st)
    | Some r =>
        match response_bbox r with
        | Raise e => (Raise e, exchanged obs net st)
        | Ok bbox =>
            match deque_last (proprio_history st) with
            | Raise e => (Raise e, exchanged obs net st)
            | Ok last_frame =>
                match response_result r with
                | Raise e => (Raise e, exchanged obs net st)
                | Ok chunk =>
                    match decode_chunk bbox chunk
                            (slice 0 6 last_frame, finger_state st)
                            (exchanged obs net st) with
                    | (Ok _, st') => (Ok tt, st')
                    | (Raise e, st') => (Raise e, st')
                    end
                end
            end
        end
    end
  else (Raise ZMQError, st).
Proof.
  unfold post_and_get, send_pyobj, recv_pyobj, exchanged. py_unfold.
  destruct (send_ok net); [|reflexivity]. simpl.
  destruct (reply net) as [r|]; [|reflexivity].
  destruct (response_bbox r); [|reflexivity]. simpl.
  destruct (deque_last (proprio_history st)); [|reflexivity].
  destruct (response_result r); [|reflexivity].
  destruct (decode_chunk _ _ _ _) as [[loc|e] st']; reflexivity.
Qed.

(** *** [step] *)

Lemma process_proprio_frame (obs : Obs) (st : Agent) :
  pred_actions (snd (process_proprio obs st)) = pred_actions st
  /\ finger_state (snd (process_proprio obs st)) = finger_state st
  /\ wire (snd (process_proprio obs st)) = wire st
  /\ instruction (snd (process_proprio obs st)) = instruction st.
Proof.
  destruct (length (robot0_joint_pos obs) =? 7) eqn:Hq.
  - destruct (process_proprio_ok obs st Hq) as (h & _ & _ & ->).
    repeat split.
  - rewrite (process_proprio_raise obs st Hq). repeat split.
Qed.

Lemma process_proprio_well_shaped (obs : Obs) (st : Agent) :
  well_shaped st -> well_shaped (snd (process_proprio obs st)).
Proof.
  intros [Hh Hq].
  destruct (length (robot0_joint_pos obs) =? 7) eqn:Hjp.
  - assert (Hpos : 0 < PROPRIO_HISTORY_SIZE)
      by (unfold PROPRIO_HISTORY_SIZE; lia).
    destruct (buffer_update_total PROPRIO_HISTORY_SIZE (proprio_history st)
                (proprio_frame obs (finger_state st)) Hpos)
      as (h & Hbu & _ & _ & Hall).
    destruct (process_proprio_ok obs st Hjp) as (h' & Hbu' & _ & ->).
    assert (h' = h) by congruence. subst h'.
    split; [|exact Hq]. cbn [snd set_proprio_history proprio_history].
    apply Hall; [exact Hh|apply proprio_frame_length].
  - rewrite (process_proprio_raise obs st Hjp). split; assumption.
Qed.

Lemma refill_phase_eq (obs : Obs) (net : Net) (st : Agent) :
  refill_phase obs net st =
  if length (robot0_joint_pos obs) =? 7 then
    if length (pred_actions st) =? 0
    then post_and_get obs net (snd (process_proprio obs st))
    else (Ok tt, snd (process_proprio obs st))
  else (Raise RuntimeError, st).
Proof.
  unfold refill_phase. unfold bind at 1.
  destruct (length (robot0_joint_pos obs) =? 7) eqn:Hq.
  - pose proof (process_proprio_frame obs st) as (Hpa & _).
    destruct (process_proprio_ok obs st Hq) as (h & _ & _ & Hp).
    rewrite Hp in *. cbn [snd] in *. py_unfold.
    rewrite Hpa. destruct (length (pred_actions st) =? 0); reflexivity.
  - rewrite (process_proprio_raise obs st Hq). reflexivity.
Qed.

Lemma emit_phase_eq (st : Agent) :
  emit_phase st =
  match pred_actions st with
  | [] => (Raise IndexError, st)
  | (a, bbox) :: rest =>
      match getitem a 6 with
      | Raise e => (Raise e, set_pred_actions rest st)
      | Ok g =>
          (Ok (firstn 6 a ++ (- g)%float :: skipn 7 a, bbox),
           set_pred_actions rest st)
      end
  end.
Proof.
  unfold emit_phase, pred_actions_popleft. py_unfold.
  destruct (pred_actions st) as [|[a bbox] rest]; [reflexivity|]. simpl.
  destruct (getitem a 6) as [g|] eqn:Hg; [|reflexivity].
  rewrite (setitem_spec a 6 g _ Hg). reflexivity.
Qed.

Lemma step_eq (obs : Obs) (net : Net) (st : Agent) :
  step obs net st =
  match refill_phase obs net st with
  | (Ok _, st1) => emit_phase st1
  | (Raise e, st1) => (Raise e, st1)
  end.
Proof. reflexivity. Qed.

Lemma post_and_get_extends (obs : Obs) (net : Net) (st : Agent) :
  if send_ok net
  then extends (exchanged obs net st) (snd (post_and_get obs net st))
  else snd (post_and_get obs net st) = st.
Proof.
  rewrite post_and_get_eq.
  destruct (send_ok net); [|reflexivity].
  destruct (reply net) as [r|]; [|apply extends_refl].
  destruct (response_bbox r) as [bbox|]; [|apply extends_refl].
  destruct (deque_last (proprio_history st)) as [lf|]; [|apply extends_refl].
  destruct (response_result r) as [chunk|]; [|apply extends_refl].
  pose proof (decode_chunk_extends bbox chunk
                (slice 0 6 lf, finger_state st) (exchanged obs net st)) as H.
  destruct (decode_chunk _ _ _ _) as [[loc|e] st']; exact H.
Qed.

Lemma post_and_get_well_shaped (obs : Obs) (net : Net) (st : Agent) :
  well_shaped st -> well_shaped (snd (post_and_get obs net st)).
Proof.
  intros [Hh Hq].
  pose proof (post_and_get_extends obs net st) as H.
  destruct (send_ok net).
  - destruct H as (_ & Hh' & _ & acts & Hq' & Ha). split.
    + rewrite Hh'. exact Hh.
    + rewrite Hq'. apply Forall_app; split; [exact Hq|exact Ha].
  - rewrite H. split; assumption.
Qed.

Lemma refill_phase_well_shaped (obs : Obs) (net : Net) (st : Agent) :
  well_shaped st -> well_shaped (snd (refill_phase obs net st)).
Proof.
  intros Hst. rewrite refill_phase_eq.
  pose proof (process_proprio_well_shaped obs st Hst) as H1.
  destruct (length (robot0_joint_pos obs) =? 7); [|exact Hst].
  destruct (length (pred_actions st) =? 0); [|exact H1].
  apply post_and_get_well_shaped. exact H1.
Qed.

Lemma emit_phase_well_shaped (st : Agent) :
  well_shaped st -> well_shaped (snd (emit_phase st)).
Proof.
  intros Hst. rewrite emit_phase_eq.
  destruct (pred_actions st) as [|[a bbox] rest] eqn:E; [exact Hst|].
  destruct Hst as [Hh Hq]. rewrite E in Hq. inversion Hq; subst.
  destruct (getitem a 6); split; assumption.
Qed.

Lemma step_well_shaped (obs : Obs) (net : Net) (st : Agent) :
  well_shaped st -> well_shaped (snd (step obs net st)).
Proof.
  intros Hst. rewrite step_eq.
  pose proof (refill_phase_well_shaped obs net st Hst) as H1.
  destruct (refill_phase obs net st) as [[u|e] st1]; [|exact H1].
  apply emit_phase_well_shaped. exact H1.
Qed.

Lemma reachable_well_shaped (st : Agent) : reachable st -> well_shaped st.
Proof.
  induction 1 as [instr|st obs net _ IH].
  - split; constructor.
  - apply step_well_shaped. exact IH.
Qed.
End AgentFacts.

(** ** The session log *)

Lemma alternating_app (l1 l2 : list Event) :
  alternating l1 = true -> alternating (l1 ++ l2) = alternating l2.
Proof.
  remember (length l1) as n eqn:Hn. revert l1 Hn.
  induction n as [n IH] using lt_wf_ind. intros l1 Hn H1.
  destruct l1 as [|[d|r] [|[d'|r'] l1]]; try discriminate; [reflexivity|].
  simpl in *. apply (IH (length l1)); [lia|reflexivity|exact H1].
Qed.

Lemma all_answered_app (l1 l2 : list Event) :
  all_answered (l1 ++ l2) = all_answered l1 && all_answered l2.
Proof. apply forallb_app. Qed.

Lemma all_answered_removelast (l : list Event) :
  all_answered l = true -> answered_but_last l = true.
Proof.
  unfold answered_but_last, all_answered.
  induction l as [|e l IH]; [reflexivity|].
  intros H. simpl in H. apply andb_true_iff in H as [He Hl].
  destruct l as [|e' l]; [reflexivity|].
  cbn [removelast forallb]. rewrite He. apply IH. exact Hl.
Qed.

Section SessionFacts.
Context {C : Collaborators}.

Lemma emit_phase_frame (st : Agent) :
  wire (snd (emit_phase st)) = wire st
  /\ finger_state (snd (emit_phase st)) = finger_state st
  /\ proprio_history (snd (emit_phase st)) = proprio_history st.
Proof.
  rewrite emit_phase_eq.
  destruct (pred_actions st) as [|[a bbox] rest]; [repeat split|].
  destruct (getitem a 6); repeat split.
Qed.

Lemma post_and_get_wire (obs : Obs) (net : Net) (st : Agent) :
  wire (snd (post_and_get obs net st)) =
  wire st ++ (if send_ok net
              then [EvSend (make_request obs st); EvRecv (reply net)]
              else []).
Proof.
  pose proof (post_and_get_extends obs net st) as H.
  destruct (send_ok net).
  - destruct H as (Hw & _). rewrite Hw.
    unfold exchanged, log_event; simpl. rewrite <- app_assoc. reflexivity.
  - rewrite H, app_nil_r. reflexivity.
Qed.

Lemma refill_phase_wire (obs : Obs) (net : Net) (st : Agent) :
  wire (snd (refill_phase obs net st)) = wire st ++ round obs net st.
Proof.
  rewrite refill_phase_eq. unfold round.
  pose proof (process_proprio_frame obs st) as (_ & _ & Hw & _).
  destruct (length (robot0_joint_pos obs) =? 7);
    [|simpl; rewrite app_nil_r; reflexivity].
  destruct (length (pred_actions st) =? 0); cbn [andb snd].
  - rewrite post_and_get_wire, Hw. reflexivity.
  - rewrite Hw, app_nil_r. reflexivity.
Qed.

Lemma step_wire (obs : Obs) (net : Net) (st : Agent) :
  wire (snd (step obs net st)) = wire st ++ round obs net st.
Proof.
  rewrite <- refill_phase_wire, step_eq.
  destruct (refill_phase obs net st) as [[u|e] st1]; [|reflexivity].
  apply emit_phase_frame.
Qed.

Lemma round_alternating (obs : Obs) (net : Net) (st : Agent) :
  alternating (round obs net st) = true.
Proof. unfold round. destruct (_ && _); reflexivity. Qed.

Lemma step_alternating (obs : Obs) (net : Net) (st : Agent) :
  alternating (wire st) = true ->
  alternating (wire (snd (step obs net st))) = true.
Proof.
  intros H. rewrite step_wire, (alternating_app _ _ H).
  apply round_alternating.
Qed.

Lemma run_alternating (ticks : list (Obs * Net)) :
  forall st, alternating (wire st) = true ->
             alternating (wire (run ticks st)) = true.
Proof.
  induction ticks as [|[obs net] ticks IH]; intros st H; [exact H|].
  apply IH, step_alternating, H.
Qed.

(** A tick that returns an action received a response if it received at
    all: a timeout raises. *)
Lemma step_ok_answered (obs : Obs) (net : Net) (st : Agent)
    (x : ndarray * BBox) (st' : Agent) :
  step obs net st = (Ok x, st') -> all_answered (round obs net st) = true.
Proof.
  rewrite step_eq, refill_phase_eq. unfold round.
  destruct (length (robot0_joint_pos obs) =? 7); [|discriminate].
  destruct (length (pred_actions st) =? 0); [|reflexivity].
  cbn [andb]. rewrite post_and_get_eq.
  destruct (send_ok net); [|reflexivity].
  destruct (reply net); [reflexivity|discriminate].
Qed.

Lemma round_answered_but_last (obs : Obs) (net : Net) (st : Agent) :
  all_answered (wire st) = true ->
  answered_but_last (wire st ++ round obs net st) = true.
Proof.
  intros H. unfold round.
  destruct (_ && _).
  - unfold answered_but_last.
    change [EvSend (make_request obs (snd (process_proprio obs st)));
            EvRecv (reply net)]
      with ([EvSend (make_request obs (snd (process_proprio obs st)))]
            ++ [EvRecv (reply net)]).
    rewrite app_assoc, removelast_last, all_answered_app, H. reflexivity.
  - rewrite app_nil_r. apply all_answered_removelast, H.
Qed.

Lemma episode_answered (ticks : list (Obs * Net)) :
  forall st, all_answered (wire st) = true ->
             answered_but_last (wire (episode ticks st)) = true.
Proof.
  induction ticks as [|[obs net] ticks IH]; intros st H.
  - apply all_answered_removelast, H.
  - cbn [episode].
    pose proof (step_wire obs net st) as Hw.
    destruct (step obs net st) as [[x|e] st'] eqn:Hstep; cbn [snd] in Hw.
    + apply IH. rewrite Hw, all_answered_app, H.
      apply (step_ok_answered _ _ _ _ _ Hstep).
    + rewrite Hw. apply round_answered_but_last, H.
Qed.

Lemma episode_alternating (ticks : list (Obs * Net)) :
  forall st, alternating (wire st) = true ->
             alternating (wire (episode ticks st)) = true.
Proof.
  induction ticks as [|[obs net] ticks IH]; intros st H; [exact H|].
  cbn [episode].
  pose proof (step_alternating obs net st H) as Hs.
  destruct (step obs net st) as [[x|e] st']; cbn [snd] in Hs.
  - apply IH, Hs.
  - exact Hs.
Qed.
End SessionFacts.

(** ** Runs on concrete inputs *)

(** An entry that repeats the current gripper state is not expanded. *)
Example repeated_gripper_one_action :
  map (fun x => getitem (fst x) 6)
    (pred_actions
       (snd (@decode_chunk Mock.collaborators Mock.bbox0
               [[0.5; 0; 0; 0; 0; 0; 1]%float]
               ([0; 0; 0; 0; 0; 0]%float, 1%float) Mock.agent0)))
  = [Ok 1%float].
Proof. reflexivity. Qed.

(** A closing command on an open gripper: one arm-only action, then four
    closing actions. *)
Example closing_gripper_five_actions :
  map (fun x => getitem (fst x) 6)
    (pred_actions
       (snd (@decode_chunk Mock.collaborators Mock.bbox0
               [[0.5; 0; 0; 0; 0; 0; -1]%float]
               ([0; 0; 0; 0; 0; 0]%float, 1%float) Mock.agent0)))
  = [Ok 0; Ok (-1); Ok (-1); Ok (-1); Ok (-1)]%float.
Proof. reflexivity. Qed.

(** A tick whose receive times out, then the caller ticks again: the queue
    is still empty, so a fresh request goes out. *)
Example timeout_then_retry :
  map (fun e => match e with
                | EvSend _ => "send"
                | EvRecv None => "recv: timeout"
                | EvRecv (Some _) => "recv: response"
                end%string)
    (wire (@run Mock.collaborators
             [(Mock.obs0, Mock.net_timeout);
              (Mock.obs0, Mock.net_of Mock.resp_move)]
             Mock.agent0))
  = ["send"; "recv: timeout"; "send"; "recv: response"]%string.
Proof. reflexivity. Qed.

Example missing_bbox_raises :
  fst (@step Mock.collaborators Mock.obs0 (Mock.net_of Mock.resp_no_bbox)
         Mock.agent0)
  = Raise (KeyError "bbox").
Proof. reflexivity. Qed.

(** ** The claims *)

(** C4. ProprioceptionBuffer: after the first update the buffer holds four
    copies of the first frame; after the updates [f1, f2, ..., fk] it holds,
    oldest first, the last four elements of [f1, f1, f1, f1, f2, ..., fk],
    so its length is four after every update; and [_process_proprio] is one
    such update, with the frame [get_current_proprio] returns. *)
Theorem proprio_buffer_contents :
  (forall (A : Type) (f1 : A) (fs : list A),
      buffer_updates PROPRIO_HISTORY_SIZE [] [f1] = Ok [f1; f1; f1; f1]
      /\ buffer_updates PROPRIO_HISTORY_SIZE [] (f1 :: fs)
         = Ok (lastn 4 (repeat f1 4 ++ fs))
      /\ length (lastn 4 (repeat f1 4 ++ fs)) = 4)
  /\ (forall (C : Collaborators) (obs : Obs) (st : Agent) (frame : ndarray),
         fst (get_current_proprio obs st) = Ok frame ->
         exists h,
           buffer_update PROPRIO_HISTORY_SIZE (proprio_history st) frame = Ok h
           /\ process_proprio obs st = (Ok tt, set_proprio_history h st)).
Proof.
  split.
  - intros A f1 fs. unfold PROPRIO_HISTORY_SIZE.
    split; [reflexivity|]. split.
    + cbn [buffer_updates]. rewrite buffer_update_first.
      rewrite buffer_updates_primed by reflexivity.
      unfold lastn. rewrite length_app, repeat_length.
      replace (4 + length fs - 4) with (length fs) by lia.
      reflexivity.
    + unfold lastn. rewrite length_skipn, length_app, repeat_length. lia.
  - intros C obs st frame Hf.
    rewrite get_current_proprio_eq in Hf. cbn [fst] in Hf.
    destruct (length (robot0_joint_pos obs) =? 7) eqn:Hq; [|discriminate].
    injection Hf as <-.
    destruct (process_proprio_ok obs st Hq) as (h & Hh & _ & Hp).
    exists h. split; assumption.
Qed.

(** C2. PoseDeltaTranslator: for a delta of seven scalars and a current pose
    of six, whenever the two rotation matrices are computed the result is
    seven scalars: the component-wise sum of the current translation and the
    delta's, with no rotation applied to it; the Euler decoding of
    [R_delta @ R_cur], the matrices of the delta's and of the current pose's
    Euler angles multiplied in that order; and the delta's gripper scalar.
    [_delta_to_abs] returns in no other case: it raises what [euler2mat]
    raises on the current pose's angles, else what it raises on the
    delta's. *)
Theorem delta_to_abs_composition :
  forall (C : Collaborators)
         (d0 d1 d2 d3 d4 d5 g c0 c1 c2 c3 c4 c5 : float),
    (forall (R_cur R_delta : Mat) (e0 e1 e2 : float),
        euler2mat c3 c4 c5 = Ok R_cur ->
        euler2mat d3 d4 d5 = Ok R_delta ->
        mat2euler (matmul R_delta R_cur) = (e0, e1, e2) ->
        delta_to_abs [d0; d1; d2; d3; d4; d5; g] [c0; c1; c2; c3; c4; c5]
        = Ok [c0 + d0; c1 + d1; c2 + d2; e0; e1; e2; g]%float)
    /\ (forall a,
          delta_to_abs [d0; d1; d2; d3; d4; d5; g] [c0; c1; c2; c3; c4; c5]
          = Ok a ->
          exists R_cur R_delta e0 e1 e2,
            euler2mat c3 c4 c5 = Ok R_cur
            /\ euler2mat d3 d4 d5 = Ok R_delta
            /\ mat2euler (matmul R_delta R_cur) = (e0, e1, e2)
            /\ a = [c0 + d0; c1 + d1; c2 + d2; e0; e1; e2; g]%float)
    /\ (forall e,
          euler2mat c3 c4 c5 = Raise e ->
          delta_to_abs [d0; d1; d2; d3; d4; d5; g] [c0; c1; c2; c3; c4; c5]
          = Raise e)
    /\ (forall R_cur e,
          euler2mat c3 c4 c5 = Ok R_cur ->
          euler2mat d3 d4 d5 = Raise e ->
          delta_to_abs [d0; d1; d2; d3; d4; d5; g] [c0; c1; c2; c3; c4; c5]
          = Raise e).
Proof.
  intros. rewrite delta_to_abs_long. split; [|split; [|split]].
  - intros R_cur R_delta e0 e1 e2 Hc Hd He. rewrite Hc, Hd, He. reflexivity.
  - intros a H.
    destruct (euler2mat c3 c4 c5) as [rc|]; [|discriminate].
    destruct (euler2mat d3 d4 d5) as [rd|]; [|discriminate].
    injection H as <-.
    destruct (mat2euler (matmul rd rc)) as [[e0 e1] e2] eqn:He.
    exists rc, rd, e0, e1, e2. repeat split. exact He.
  - intros e Hc. rewrite Hc. reflexivity.
  - intros R_cur e Hc Hd. rewrite Hc, Hd. reflexivity.
Qed.

(** C2 on a finite delta and pose. *)
Lemma delta_to_abs_composition_witness :
  @delta_to_abs Mock.collaborators [0.5; 0; 0.25; 0.5; 0; 0; -1]%float
    [1; 2; 3; 0.25; 0; 0]%float
  = Ok [1.5; 2; 3.25; 0.75; 0; 0; -1]%float.
Proof.
  apply (proj1 (delta_to_abs_composition Mock.collaborators
                  0.5 0 0.25 0.5 0 0 (-1) 1 2 3 0.25 0 0)%float
           (0.25, 0, 0)%float (0.5, 0, 0)%float 0.75%float 0%float 0%float);
    reflexivity.
Defined.

(** C1. GripperTransitionPlanner.  [_post_and_get] decodes the chunk of the
    response with its bounding box, starting from the pose of the newest
    frame and from the gripper state as [last_finger_state]; the entries
    are decoded in order.  For an entry whose conversion to an absolute
    action [a] returns, [a] ends with the entry's gripper scalar [g].  When
    [g] is zero or equals [last_finger_state] the entry enqueues one action,
    [a] paired with the bounding box, and leaves the gripper state alone.
    Any other entry enqueues five: [a] with its gripper forced to zero, then
    four copies of [a], and sets the gripper state to [g] at once.  After an
    entry [last_finger_state] is [g] when [g] is not zero and is unchanged
    otherwise, and the pose is that of [a].  An entry whose conversion
    raises enqueues nothing.  The chunk [(D1, 0), (D2, +1)] decoded with
    [last_finger_state = -1] enqueues six actions. *)
Theorem gripper_transition_expansion :
  forall (C : Collaborators) (bbox : BBox) (st : Agent),
    (* the chunk of a response *)
    (forall obs net r last_frame chunk,
        send_ok net = true -> reply net = Some r ->
        response_bbox r = Ok bbox ->
        deque_last (proprio_history st) = Ok last_frame ->
        response_result r = Ok chunk ->
        post_and_get obs net st =
        match decode_chunk bbox chunk (slice 0 6 last_frame, finger_state st)
                (exchanged obs net st) with
        | (Ok _, st') => (Ok tt, st')
        | (Raise e, st') => (Raise e, st')
        end)
    (* in order *)
    /\ (forall (delta : ndarray) (rest : list ndarray) (loc : ndarray * float),
        decode_chunk bbox (delta :: rest) loc st =
        match decode_entry bbox delta loc st with
        | (Ok loc', st') => decode_chunk bbox rest loc' st'
        | (Raise e, st') => (Raise e, st')
        end)
    (* one entry whose conversion returns *)
    /\ (forall (delta pose a : ndarray) (last : float),
          delta_to_abs delta pose = Ok a ->
          exists g,
            getitem delta 6 = Ok g
            /\ getitem a 6 = Ok g
            /\ fst (decode_entry bbox delta (pose, last) st)
               = Ok (slice 0 6 a, if (g =? 0)%float then last else g)
            /\ wire (snd (decode_entry bbox delta (pose, last) st)) = wire st
            /\ proprio_history (snd (decode_entry bbox delta (pose, last) st))
               = proprio_history st
            /\ instruction (snd (decode_entry bbox delta (pose, last) st))
               = instruction st
            /\ ((g =? 0)%float = true \/ (g =? last)%float = true ->
                pred_actions (snd (decode_entry bbox delta (pose, last) st))
                = pred_actions st ++ [(a, bbox)]
                /\ finger_state (snd (decode_entry bbox delta (pose, last) st))
                   = finger_state st)
            /\ ((g =? 0)%float = false /\ (g =? last)%float = false ->
                pred_actions (snd (decode_entry bbox delta (pose, last) st))
                = pred_actions st
                  ++ [(slice 0 6 a ++ [0%float], bbox);
                      (a, bbox); (a, bbox); (a, bbox); (a, bbox)]
                /\ finger_state (snd (decode_entry bbox delta (pose, last) st))
                   = g))
    (* one entry whose conversion raises *)
    /\ (forall (delta pose : ndarray) (last : float) (e : exn),
          delta_to_abs delta pose = Raise e ->
          decode_entry bbox delta (pose, last) st = (Raise e, st))
    (* the chunk [(D1, 0), (D2, +1)] *)
    /\ (forall (D1 D2 pose a1 a2 : ndarray),
          getitem D1 6 = Ok 0%float ->
          getitem D2 6 = Ok 1%float ->
          delta_to_abs D1 pose = Ok a1 ->
          delta_to_abs D2 (slice 0 6 a1) = Ok a2 ->
          fst (decode_chunk bbox [D1; D2] (pose, (-1)%float) st)
          = Ok (slice 0 6 a2, 1%float)
          /\ pred_actions
               (snd (decode_chunk bbox [D1; D2] (pose, (-1)%float) st))
             = pred_actions st
               ++ [(a1, bbox);
                   (slice 0 6 a2 ++ [0%float], bbox);
                   (a2, bbox); (a2, bbox); (a2, bbox); (a2, bbox)]
          /\ finger_state
               (snd (decode_chunk bbox [D1; D2] (pose, (-1)%float) st))
             = 1%float).
Proof.
  intros C bbox st. split; [|split; [|split; [|split]]].
  - intros obs net r last_frame chunk Hs Hr Hb Hl Hres.
    rewrite post_and_get_eq, Hs, Hr, Hb, Hl, Hres. reflexivity.
  - intros delta rest loc. reflexivity.
  - intros delta pose a last Ha.
    destruct (delta_to_abs_ok_gripper _ _ _ Ha) as (g & Hd & Hg & _).
    exists g. split; [exact Hd|]. split; [exact Hg|].
    rewrite decode_entry_eq, Ha, Hg.
    destruct (g =? 0)%float eqn:Hz; destruct (g =? last)%float eqn:Hl;
      cbn [orb negb fst snd set_pred_actions set_finger_state wire
           proprio_history instruction pred_actions finger_state repeat];
      repeat (split; [reflexivity|]); split;
      first [ intros [?|?]; discriminate
            | intros [? ?]; discriminate
            | intros _; split; reflexivity ].
  - intros delta pose last e Ha. rewrite decode_entry_eq, Ha. reflexivity.
  - intros D1 D2 pose a1 a2 Hg1 Hg2 Ha1 Ha2.
    destruct (delta_to_abs_ok_gripper _ _ _ Ha1) as (g1 & Hd1 & Hq1 & _).
    destruct (delta_to_abs_ok_gripper _ _ _ Ha2) as (g2 & Hd2 & Hq2 & _).
    assert (g1 = 0%float) by congruence.
    assert (g2 = 1%float) by congruence. subst g1 g2.
    cbn [decode_chunk]. unfold bind.
    rewrite decode_entry_eq, Ha1, Hq1.
    replace ((0 =? 0)%float) with true by reflexivity.
    cbn [orb negb].
    rewrite decode_entry_eq, Ha2, Hq2.
    replace ((1 =? 0)%float) with false by reflexivity.
    replace ((1 =? -1)%float) with false by reflexivity.
    cbn [orb negb ret fst snd set_pred_actions set_finger_state
         pred_actions finger_state repeat].
    rewrite <- app_assoc. repeat split.
Qed.

(** C1 on a fresh agent: the chunk [(D1, 0), (D2, +1)] decoded after a
    closed gripper enqueues six actions and opens the gripper. *)
Lemma gripper_transition_expansion_witness :
  fst (@decode_chunk Mock.collaborators Mock.bbox0
         [[0.5; 0; 0; 0; 0; 0; 0]; [0; 0.5; 0; 0; 0; 0; 1]]%float
         ([1; 2; 3; 0; 0; 0]%float, (-1)%float) Mock.agent0)
  = Ok (slice 0 6 [1.5; 2.5; 3; 0; 0; 0; 1]%float, 1%float)
  /\ pred_actions
       (snd (@decode_chunk Mock.collaborators Mock.bbox0
               [[0.5; 0; 0; 0; 0; 0; 0]; [0; 0.5; 0; 0; 0; 0; 1]]%float
               ([1; 2; 3; 0; 0; 0]%float, (-1)%float) Mock.agent0))
     = pred_actions Mock.agent0
       ++ [([1.5; 2; 3; 0; 0; 0; 0]%float, Mock.bbox0);
           (slice 0 6 [1.5; 2.5; 3; 0; 0; 0; 1]%float ++ [0%float],
            Mock.bbox0);
           ([1.5; 2.5; 3; 0; 0; 0; 1]%float, Mock.bbox0);
           ([1.5; 2.5; 3; 0; 0; 0; 1]%float, Mock.bbox0);
           ([1.5; 2.5; 3; 0; 0; 0; 1]%float, Mock.bbox0);
           ([1.5; 2.5; 3; 0; 0; 0; 1]%float, Mock.bbox0)]
  /\ finger_state
       (snd (@decode_chunk Mock.collaborators Mock.bbox0
               [[0.5; 0; 0; 0; 0; 0; 0]; [0; 0.5; 0; 0; 0; 0; 1]]%float
               ([1; 2; 3; 0; 0; 0]%float, (-1)%float) Mock.agent0))
     = 1%float.
Proof.
  apply (proj2 (proj2 (proj2 (proj2
           (gripper_transition_expansion Mock.collaborators Mock.bbox0
              Mock.agent0)))));
    reflexivity.
Defined.

(** C3, as stated, fails: a chunk whose first entry closes the gripper and
    whose second entry has too few scalars makes the refill of the first
    tick raise after five actions were enqueued and the gripper state was
    set to -1. *)
Lemma refill_not_atomic :
  fst (@step Mock.collaborators Mock.obs0 (Mock.net_of Mock.resp_ragged)
         Mock.agent0) = Raise TypeError
  /\ fst (@refill_phase Mock.collaborators Mock.obs0
            (Mock.net_of Mock.resp_ragged) Mock.agent0) = Raise TypeError
  /\ pred_actions Mock.agent0 = []
  /\ finger_state Mock.agent0 = 1%float
  /\ length (pred_actions
               (snd (@refill_phase Mock.collaborators Mock.obs0
                       (Mock.net_of Mock.resp_ragged) Mock.agent0))) = 5
  /\ finger_state
       (snd (@refill_phase Mock.collaborators Mock.obs0
               (Mock.net_of Mock.resp_ragged) Mock.agent0)) = (-1)%float.
Proof. vm_compute. repeat split. Qed.

(** C3, amended.  A refill that fails before decoding starts (the send is
    refused, the receive times out, the response lacks [debug], [bbox] or
    [result]) leaves the queue, the gripper state and the history as they
    were.  A refill that fails on an entry of the chunk stops there: the
    agent is left as the entries before the failing one made it, with their
    actions enqueued and their gripper transitions committed.  Either way
    the tick raises what the refill raised. *)
Theorem refill_failure_state :
  forall (C : Collaborators) (obs : Obs) (net : Net) (st : Agent),
    (send_ok net = false -> post_and_get obs net st = (Raise ZMQError, st))
    /\ (pred_actions (exchanged obs net st) = pred_actions st
        /\ finger_state (exchanged obs net st) = finger_state st
        /\ proprio_history (exchanged obs net st) = proprio_history st)
    /\ (send_ok net = true -> reply net = None ->
        post_and_get obs net st = (Raise Again, exchanged obs net st))
    /\ (forall r,
          send_ok net = true -> reply net = Some r ->
          resp_debug r = None \/ resp_debug r = Some None
          \/ resp_result r = None ->
          exists e, post_and_get obs net st = (Raise e, exchanged obs net st))
    /\ (forall r bbox last_frame pre bad rest loc1 st1 e,
          send_ok net = true -> reply net = Some r ->
          response_bbox r = Ok bbox ->
          deque_last (proprio_history st) = Ok last_frame ->
          resp_result r = Some (pre ++ bad :: rest) ->
          decode_chunk bbox pre (slice 0 6 last_frame, finger_state st)
            (exchanged obs net st) = (Ok loc1, st1) ->
          fst (decode_entry bbox bad loc1 st1) = Raise e ->
          post_and_get obs net st = (Raise e, st1))
    /\ (forall e,
          fst (refill_phase obs net st) = Raise e ->
          step obs net st = (Raise e, snd (refill_phase obs net st))).
Proof.
  intros C obs net st. repeat split.
  - intros Hs. rewrite post_and_get_eq, Hs. reflexivity.
  - intros Hs Hr. rewrite post_and_get_eq, Hs, Hr. reflexivity.
  - intros r Hs Hr Hmiss. rewrite post_and_get_eq, Hs, Hr.
    unfold response_bbox, response_result.
    destruct (resp_debug r) as [[b|]|]; try (eexists; reflexivity).
    destruct (deque_last (proprio_history st)); try (eexists; reflexivity).
    destruct (resp_result r) as [chunk|]; try (eexists; reflexivity).
    destruct Hmiss as [H|[H|H]]; discriminate.
  - intros r bbox lf pre bad rest loc1 st1 e Hs Hr Hb Hl Hres Hpre Hbad.
    rewrite post_and_get_eq, Hs, Hr, Hb, Hl.
    unfold response_result. rewrite Hres.
    rewrite decode_chunk_app, Hpre. cbn [decode_chunk]. unfold bind.
    destruct (decode_entry bbox bad loc1 st1) as [[loc'|e'] st'] eqn:Hd;
      cbn [fst] in Hbad; [discriminate|].
    injection Hbad as ->.
    apply decode_entry_raise in Hd. subst st'. reflexivity.
  - intros e He. rewrite step_eq.
    destruct (refill_phase obs net st) as [[u|e'] st1]; cbn [fst snd] in *;
      [discriminate|congruence].
Qed.

(** The amended C3 on the ragged chunk, received by an agent whose history
    was just updated: the refill raises on the second entry and keeps what
    the first one did. *)
Lemma refill_failure_state_witness :
  let st := snd (@process_proprio Mock.collaborators Mock.obs0 Mock.agent0) in
  let net := Mock.net_of Mock.resp_ragged in
  exists st1,
    length (pred_actions st1) = 5
    /\ finger_state st1 = (-1)%float
    /\ post_and_get (C := Mock.collaborators) Mock.obs0 net st
       = (Raise TypeError, st1).
Proof.
  intros st net.
  exists (snd (@decode_chunk Mock.collaborators Mock.bbox0
                 [[0; 0; 0; 0; 0; 0; -1]%float]
                 ([0.5; 0; 0.25; 0; 0; 0]%float, 1%float)
                 (exchanged Mock.obs0 net st))).
  split; [vm_compute; reflexivity|].
  split; [vm_compute; reflexivity|].
  eapply (proj1 (proj2 (proj2 (proj2 (proj2
            (refill_failure_state Mock.collaborators Mock.obs0 net st))))))
    with (r := Mock.resp_ragged) (bbox := Mock.bbox0)
         (last_frame := [0.5; 0; 0.25; 0; 0; 0; 1]%float)
         (pre := [[0; 0; 0; 0; 0; 0; -1]%float])
         (bad := [0; 0; 0]%float) (rest := []);
    vm_compute; reflexivity.
Defined.

(** C5. Session discipline.  Whatever the ticks, and whether or not the
    caller goes on after a tick that raised, the calls that reach the socket
    are rounds of one send followed by one receive, so no request is sent
    while the receive of the previous one is pending; a tick performs at
    most one round, and only when the queue is empty at its start.  In an
    episode, which ends at the first exception, every receive but possibly
    the last returned a response. *)
Theorem session_strict_alternation :
  forall (C : Collaborators),
    (forall ticks instr,
        alternating (wire (run ticks (initialize_state instr))) = true)
    /\ (forall obs net st,
          wire (snd (step obs net st)) = wire st ++ round obs net st
          /\ (round obs net st = []
              \/ (pred_actions st = []
                  /\ exists data,
                       round obs net st = [EvSend data; EvRecv (reply net)])))
    /\ (forall ticks instr,
          alternating (wire (episode ticks (initialize_state instr))) = true
          /\ answered_but_last
               (wire (episode ticks (initialize_state instr))) = true).
Proof.
  intros C. split; [|split].
  - intros ticks instr. apply run_alternating. reflexivity.
  - intros obs net st. split; [apply step_wire|].
    unfold round.
    destruct (length (pred_actions st) =? 0) eqn:Hq.
    + destruct (_ && _); [right|left; reflexivity].
      split; [|eexists; reflexivity].
      apply Nat.eqb_eq in Hq. apply length_zero_iff_nil. exact Hq.
    + left. rewrite andb_false_r. reflexivity.
  - intros ticks instr. split.
    + apply episode_alternating. reflexivity.
    + apply episode_answered. reflexivity.
Qed.

(** C6. Emitted action polarity.  A tick that returns pops the head of the
    queue as the refill left it, which is the queue of the start of the tick
    when that one was not empty: the six pose scalars and the bounding box
    are returned as stored, the gripper scalar negated, and the queue loses
    that one action.  Whenever the refill returns with a queue that is not
    empty, the tick returns. *)
Theorem emitted_action_polarity :
  forall (C : Collaborators) (st : Agent) (obs : Obs) (net : Net),
    reachable st ->
    (forall action bbox st',
        step obs net st = (Ok (action, bbox), st') ->
        exists stored rest,
          pred_actions (snd (refill_phase obs net st)) = (stored, bbox) :: rest
          /\ pred_actions st' = rest
          /\ length stored = 7 /\ length action = 7
          /\ slice 0 6 action = slice 0 6 stored
          /\ getitem action 6 = Ok (- nth 6 stored 0)%float)
    /\ (forall stored bbox rest,
          fst (refill_phase obs net st) = Ok tt ->
          pred_actions (snd (refill_phase obs net st)) = (stored, bbox) :: rest ->
          step obs net st
          = (Ok (slice 0 6 stored ++ [(- nth 6 stored 0)%float], bbox),
             set_pred_actions rest (snd (refill_phase obs net st))))
    /\ (pred_actions st <> [] ->
        pred_actions (snd (refill_phase obs net st)) = pred_actions st).
Proof.
  intros C st obs net Hreach.
  assert (Hws : well_shaped (snd (refill_phase obs net st)))
    by (apply refill_phase_well_shaped, reachable_well_shaped, Hreach).
  assert (Hemit : forall stored bbox rest,
             pred_actions (snd (refill_phase obs net st)) = (stored, bbox) :: rest ->
             length stored = 7
             /\ emit_phase (snd (refill_phase obs net st))
                = (Ok (slice 0 6 stored ++ [(- nth 6 stored 0)%float], bbox),
                   set_pred_actions rest (snd (refill_phase obs net st)))).
  { intros stored bbox rest Hq.
    destruct Hws as [_ Hall]. rewrite Hq in Hall.
    inversion Hall as [|? ? Hlen _]; subst. cbn [fst] in Hlen.
    split; [exact Hlen|].
    rewrite emit_phase_eq, Hq.
    destruct stored as [|s0 [|s1 [|s2 [|s3 [|s4 [|s5 [|s6 [|s7 stored]]]]]]]];
      try discriminate.
    reflexivity. }
  split; [|split].
  - intros action bbox st' Hstep. rewrite step_eq in Hstep.
    destruct (refill_phase obs net st) as [[u|e] st1] eqn:Hr;
      [|discriminate]. cbn [snd] in *.
    destruct (pred_actions st1) as [|[stored bb] rest] eqn:Hq.
    + rewrite emit_phase_eq, Hq in Hstep. discriminate.
    + destruct (Hemit stored bb rest eq_refl) as [Hlen Hem].
      rewrite Hem in Hstep. injection Hstep as <- <- <-.
      exists stored, rest.
      destruct stored as [|s0 [|s1 [|s2 [|s3 [|s4 [|s5 [|s6 [|s7 stored]]]]]]]];
        try discriminate.
      repeat split.
  - intros stored bbox rest Hok Hq. rewrite step_eq.
    destruct (refill_phase obs net st) as [[u|e] st1]; [|discriminate].
    apply (Hemit stored bbox rest Hq).
  - intros Hne. rewrite refill_phase_eq.
    pose proof (process_proprio_frame obs st) as (Hpa & _).
    destruct (length (robot0_joint_pos obs) =? 7); [|reflexivity].
    destruct (pred_actions st) as [|x q] eqn:Hq; [congruence|].
    cbn [length Nat.eqb snd]. exact Hpa.
Qed.

(** C6 on the first tick of a fresh agent: the stored gripper scalar is 0,
    the emitted one is -0. *)
Lemma emitted_action_polarity_witness :
  @step Mock.collaborators Mock.obs0 (Mock.net_of Mock.resp_move) Mock.agent0
  = (Ok ([1; 0; 0.25; 0; 0; 0; -0]%float, Mock.bbox0),
     set_pred_actions []
       (snd (@refill_phase Mock.collaborators Mock.obs0
               (Mock.net_of Mock.resp_move) Mock.agent0))).
Proof.
  apply (proj1 (proj2
           (emitted_action_polarity Mock.collaborators Mock.agent0 Mock.obs0
              (Mock.net_of Mock.resp_move)
              (reachable_init "pick up apple")))
           [1; 0; 0.25; 0; 0; 0; 0]%float Mock.bbox0 []);
    vm_compute; reflexivity.
Defined.

(** C8, as stated, fails: no exception of the agent is a ProtocolError.  A
    response without [result], and one without [bbox] inside [debug], make
    the first tick of a fresh agent raise the KeyError of the missing key. *)
Lemma malformed_response_not_protocol_error :
  (exists e,
      fst (@step Mock.collaborators Mock.obs0
             (Mock.net_of Mock.resp_no_result) Mock.agent0) = Raise e
      /\ e = KeyError "result"
      /\ exn_name e = "KeyError"%string
      /\ exn_name e <> "ProtocolError"%string)
  /\ (exists e,
         fst (@step Mock.collaborators Mock.obs0
                (Mock.net_of Mock.resp_no_bbox) Mock.agent0) = Raise e
         /\ e = KeyError "bbox"
         /\ exn_name e = "KeyError"%string
         /\ exn_name e <> "ProtocolError"%string).
Proof.
  split; eexists; (split; [reflexivity|]);
    (split; [reflexivity|]); (split; [reflexivity|]); discriminate.
Qed.

(** C8, amended.  A response that lacks [debug], [bbox] inside [debug], or
    [result] makes the refill raise the KeyError of the missing key; the
    tick raises it too and emits no action, its queue as empty as before
    and the gripper state unchanged. *)
Theorem malformed_response_fails :
  forall (C : Collaborators) (obs : Obs) (net : Net) (st : Agent)
         (r : Response),
    (length (robot0_joint_pos obs) =? 7) = true ->
    pred_actions st = [] ->
    send_ok net = true ->
    reply net = Some r ->
    resp_debug r = None \/ resp_debug r = Some None \/ resp_result r = None ->
    exists key,
      (key = "debug"%string /\ resp_debug r = None
       \/ key = "bbox"%string /\ resp_debug r = Some None
       \/ key = "result"%string /\ resp_result r = None)
      /\ fst (post_and_get obs net (snd (process_proprio obs st)))
         = Raise (KeyError key)
      /\ fst (step obs net st) = Raise (KeyError key)
      /\ pred_actions (snd (step obs net st)) = []
      /\ finger_state (snd (step obs net st)) = finger_state st.
Proof.
  intros C obs net st r Hq Hempty Hs Hr Hmiss.
  destruct (process_proprio_ok obs st Hq) as (h & _ & Hlast & Hp).
  assert (Hup : forall e st1,
             post_and_get obs net (set_proprio_history h st) = (Raise e, st1) ->
             step obs net st = (Raise e, st1)).
  { intros e st1 H.
    rewrite step_eq, refill_phase_eq, Hq, Hempty, Hp.
    cbn [length Nat.eqb snd]. rewrite H. reflexivity. }
  assert (Hpg : exists key,
             (key = "debug"%string /\ resp_debug r = None
              \/ key = "bbox"%string /\ resp_debug r = Some None
              \/ key = "result"%string /\ resp_result r = None)
             /\ post_and_get obs net (set_proprio_history h st)
                = (Raise (KeyError key),
                   exchanged obs net (set_proprio_history h st))).
  { rewrite post_and_get_eq, Hs, Hr.
    unfold response_bbox, response_result.
    cbn [set_proprio_history proprio_history]. rewrite Hlast.
    destruct (resp_debug r) as [[b|]|] eqn:Hd.
    - destruct (resp_result r) as [chunk|] eqn:Hres.
      + destruct Hmiss as [H|[H|H]]; discriminate.
      + exists "result"%string. split; auto.
    - exists "bbox"%string. split; auto.
    - exists "debug"%string. split; auto. }
  destruct Hpg as (key & Hkey & Hpg).
  exists key. split; [exact Hkey|].
  rewrite Hp. cbn [snd]. rewrite (Hup _ _ Hpg), Hpg.
  repeat split. exact Hempty.
Qed.

(** C8 on a response without [result]. *)
Lemma malformed_response_fails_witness :
  exists key,
    (key = "debug"%string /\ resp_debug Mock.resp_no_result = None
     \/ key = "bbox"%string /\ resp_debug Mock.resp_no_result = Some None
     \/ key = "result"%string /\ resp_result Mock.resp_no_result = None)
    /\ fst (@post_and_get Mock.collaborators Mock.obs0
              (Mock.net_of Mock.resp_no_result)
              (snd (@process_proprio Mock.collaborators Mock.obs0 Mock.agent0)))
       = Raise (KeyError key)
    /\ fst (@step Mock.collaborators Mock.obs0
              (Mock.net_of Mock.resp_no_result) Mock.agent0)
       = Raise (KeyError key)
    /\ pred_actions (snd (@step Mock.collaborators Mock.obs0
                            (Mock.net_of Mock.resp_no_result) Mock.agent0)) = []
    /\ finger_state (snd (@step Mock.collaborators Mock.obs0
                            (Mock.net_of Mock.resp_no_result) Mock.agent0))
       = finger_state Mock.agent0.
Proof.
  apply (malformed_response_fails Mock.collaborators Mock.obs0
           (Mock.net_of Mock.resp_no_result) Mock.agent0 Mock.resp_no_result);
    try reflexivity.
  right; right; reflexivity.
Defined.

(** C9. An empty chunk: on a tick whose queue is empty, a response whose
    result sequence is empty lets the refill return with the queue still
    empty, and the pop of the head action then raises: the tick emits no
    action. *)
Theorem empty_chunk_pop_fails :
  forall (C : Collaborators) (obs : Obs) (net : Net) (st : Agent)
         (r : Response) (bbox : BBox),
    (length (robot0_joint_pos obs) =? 7) = true ->
    pred_actions st = [] ->
    send_ok net = true ->
    reply net = Some r ->
    response_bbox r = Ok bbox ->
    resp_result r = Some [] ->
    fst (refill_phase obs net st) = Ok tt
    /\ pred_actions (snd (refill_phase obs net st)) = []
    /\ deque_popleft (pred_actions (snd (refill_phase obs net st)))
       = Raise IndexError
    /\ step obs net st = (Raise IndexError, snd (refill_phase obs net st)).
Proof.
  intros C obs net st r bbox Hq Hempty Hs Hr Hb Hres.
  destruct (process_proprio_ok obs st Hq) as (h & _ & Hlast & Hp).
  assert (Hrefill : refill_phase obs net st
                    = (Ok tt, exchanged obs net (set_proprio_history h st))).
  { rewrite refill_phase_eq, Hq, Hempty, Hp. cbn [length Nat.eqb snd].
    rewrite post_and_get_eq, Hs, Hr, Hb.
    cbn [set_proprio_history proprio_history]. rewrite Hlast.
    unfold response_result. rewrite Hres. reflexivity. }
  rewrite step_eq, Hrefill. cbn [fst snd].
  assert (Hq' : pred_actions (exchanged obs net (set_proprio_history h st)) = [])
    by exact Hempty.
  rewrite emit_phase_eq, Hq'. repeat split.
Qed.

(** C9 on the first tick of a fresh agent. *)
Lemma empty_chunk_pop_fails_witness :
  fst (@refill_phase Mock.collaborators Mock.obs0
         (Mock.net_of Mock.resp_empty_chunk) Mock.agent0) = Ok tt
  /\ pred_actions (snd (@refill_phase Mock.collaborators Mock.obs0
                          (Mock.net_of Mock.resp_empty_chunk) Mock.agent0)) = []
  /\ deque_popleft
       (pred_actions (snd (@refill_phase Mock.collaborators Mock.obs0
                             (Mock.net_of Mock.resp_empty_chunk) Mock.agent0)))
     = Raise IndexError
  /\ @step Mock.collaborators Mock.obs0 (Mock.net_of Mock.resp_empty_chunk)
       Mock.agent0
     = (Raise IndexError,
        snd (@refill_phase Mock.collaborators Mock.obs0
               (Mock.net_of Mock.resp_empty_chunk) Mock.agent0)).
Proof.
  apply (empty_chunk_pop_fails Mock.collaborators Mock.obs0
           (Mock.net_of Mock.resp_empty_chunk) Mock.agent0
           Mock.resp_empty_chunk Mock.bbox0); reflexivity.
Defined.


(** * Further properties of the code *)

(** ** [_delta_to_abs]: when it returns *)

Section DeltaToAbsFacts.
Context {C : Collaborators}.

(** X1. [_delta_to_abs] returns exactly when the pose has at least six
    scalars, the delta at least seven, and the two calls of [euler2mat]
    return; it then reads only the first six and seven scalars, and its
    result has seven.  In the order of evaluation: a pose of fewer than six
    scalars raises TypeError (the rotation is called with missing angles);
    what [euler2mat] raises on the pose's angles is raised; a delta of fewer
    than six scalars raises TypeError; what [euler2mat] raises on the
    delta's angles is raised; a delta of six scalars raises IndexError (no
    gripper scalar). *)
Theorem delta_to_abs_ok_iff :
  forall delta pose : ndarray,
    ((exists a, delta_to_abs delta pose = Ok a)
     <-> 6 <= length pose /\ 7 <= length delta
         /\ (exists R_cur, star3 euler2mat (slice 3 6 pose) = Ok R_cur)
         /\ (exists R_delta, star3 euler2mat (slice 3 6 delta) = Ok R_delta))
    /\ (length pose < 6 -> delta_to_abs delta pose = Raise TypeError)
    /\ (forall e,
          star3 euler2mat (slice 3 6 pose) = Raise e ->
          delta_to_abs delta pose = Raise e)
    /\ (forall R_cur,
          star3 euler2mat (slice 3 6 pose) = Ok R_cur ->
          length delta < 6 ->
          delta_to_abs delta pose = Raise TypeError)
    /\ (forall R_cur e,
          star3 euler2mat (slice 3 6 pose) = Ok R_cur ->
          star3 euler2mat (slice 3 6 delta) = Raise e ->
          delta_to_abs delta pose = Raise e)
    /\ (forall R_cur R_delta,
          star3 euler2mat (slice 3 6 pose) = Ok R_cur ->
          star3 euler2mat (slice 3 6 delta) = Ok R_delta ->
          length delta = 6 ->
          delta_to_abs delta pose = Raise IndexError)
    /\ (6 <= length pose -> 7 <= length delta ->
        delta_to_abs delta pose
        = delta_to_abs (firstn 7 delta) (firstn 6 pose))
    /\ (forall a, delta_to_abs delta pose = Ok a -> length a = 7).
Proof.
  intros delta pose.
  assert (Hshort : length pose < 6 ->
                   star3 euler2mat (slice 3 6 pose) = Raise TypeError).
  { intros H.
    destruct pose as [|c0 [|c1 [|c2 [|c3 [|c4 [|c5 cr]]]]]];
      simpl in H; try lia; reflexivity. }
  assert (Hfew : length delta < 6 ->
                 star3 euler2mat (slice 3 6 delta) = Raise TypeError).
  { intros H.
    destruct delta as [|d0 [|d1 [|d2 [|d3 [|d4 [|d5 dr]]]]]];
      simpl in H; try lia; reflexivity. }
  assert (Hraise : forall e, star3 euler2mat (slice 3 6 pose) = Raise e ->
                             delta_to_abs delta pose = Raise e).
  { intros e H. unfold delta_to_abs. rewrite H. reflexivity. }
  assert (Hlen : forall a, delta_to_abs delta pose = Ok a -> length a = 7).
  { intros a Ha.
    destruct (delta_to_abs_ok_gripper _ _ _ Ha) as (_ & _ & _ & H). exact H. }
  split; [|split; [|split; [|split; [|split; [|split; [|split]]]]]].
  - split.
    + intros [a Ha].
      destruct (delta_to_abs_inv _ _ _ Ha)
        as (d0 & d1 & d2 & d3 & d4 & d5 & g & dr & c0 & c1 & c2 & c3 & c4
            & c5 & cr & rc & rd & -> & -> & Hc & Hd & _).
      split; [simpl; lia|]. split; [simpl; lia|].
      split; [exists rc; exact Hc|exists rd; exact Hd].
    + intros (Hp & Hd & [rc Hc] & [rd Hrd]).
      destruct pose as [|c0 [|c1 [|c2 [|c3 [|c4 [|c5 cr]]]]]];
        simpl in Hp; try lia.
      destruct delta as [|d0 [|d1 [|d2 [|d3 [|d4 [|d5 [|g dr]]]]]]];
        simpl in Hd; try lia.
      cbn [slice skipn firstn Nat.sub star3] in Hc, Hrd.
      rewrite delta_to_abs_long, Hc, Hrd. eexists; reflexivity.
  - intros H. apply Hraise, Hshort, H.
  - exact Hraise.
  - intros rc Hc Hd. unfold delta_to_abs. rewrite Hc, (Hfew Hd). reflexivity.
  - intros rc e Hc Hd. unfold delta_to_abs. rewrite Hc, Hd. reflexivity.
  - intros rc rd Hc Hd H6. unfold delta_to_abs. rewrite Hc, Hd.
    destruct pose as [|c0 [|c1 [|c2 [|c3 [|c4 [|c5 cr]]]]]];
      try discriminate Hc.
    destruct delta as [|d0 [|d1 [|d2 [|d3 [|d4 [|d5 [|g dr]]]]]]];
      simpl in H6; try lia.
    reflexivity.
  - intros Hp Hd.
    destruct pose as [|c0 [|c1 [|c2 [|c3 [|c4 [|c5 cr]]]]]];
      simpl in Hp; try lia.
    destruct delta as [|d0 [|d1 [|d2 [|d3 [|d4 [|d5 [|g dr]]]]]]];
      simpl in Hd; try lia.
    cbn [firstn]. rewrite !delta_to_abs_long. reflexivity.
  - exact Hlen.
Qed.
End DeltaToAbsFacts.

(** ** Decoding a chunk to its end *)

(** Python's [==] on two floats of which one is not zero holds only for
    the same float. *)
Lemma float_eqb_nonzero_eq (g l : float) :
  (g =? 0)%float = false -> (g =? l)%float = true -> g = l.
Proof.
  rewrite !FloatAxioms.eqb_spec. intros Hz He.
  apply FloatAxioms.Prim2SF_inj.
  change (Prim2SF 0%float) with (S754_zero false) in Hz.
  unfold SFeqb, SFcompare in *.
  destruct (Prim2SF g) as [sg|sg| |sg mg eg];
    destruct (Prim2SF l) as [sl|sl| |sl ml el];
    try discriminate;
    try (destruct sg; discriminate); try (destruct sl; discriminate).
  - destruct sg, sl; try discriminate; reflexivity.
  - destruct sg, sl; try discriminate;
      destruct (Z.compare_spec eg el) as [E|E|E]; try discriminate;
      subst el;
      destruct (Pos.compare_cont Eq mg ml) eqn:Hm; try discriminate;
      apply Pos.compare_eq in Hm; subst ml; reflexivity.
Qed.

Section RefillFacts.
Context {C : Collaborators}.

Lemma decode_entry_returns (bbox : BBox) (delta pose : ndarray)
    (last : float) (st : Agent) (loc' : ndarray * float) (st' : Agent) :
  decode_entry bbox delta (pose, last) st = (Ok loc', st') ->
  7 <= length delta
  /\ snd loc' = (if negb (gripper delta =? 0)%float
                 then gripper delta else last)
  /\ length (pred_actions st')
     = length (pred_actions st) + 1
       + 4 * (if (gripper delta =? 0)%float || (gripper delta =? last)%float
              then 0 else 1)
  /\ finger_state st'
     = (if (gripper delta =? 0)%float || (gripper delta =? last)%float
        then finger_state st else gripper delta).
Proof.
  rewrite decode_entry_eq.
  destruct (delta_to_abs delta pose) as [a|e] eqn:Ha; [|discriminate].
  destruct (delta_to_abs_ok_gripper _ _ _ Ha) as (g & Hd & Hg & _).
  rewrite Hg.
  assert (Hgr : gripper delta = g).
  { unfold gripper. unfold getitem in Hd.
    destruct (nth_error delta 6) as [x|] eqn:Hn; [|discriminate].
    injection Hd as ->. apply nth_error_nth. exact Hn. }
  rewrite Hgr.
  pose proof (getitem_length _ _ _ Hd) as Hl7.
  destruct ((g =? 0)%float || (g =? last)%float);
    intros H; injection H as <- <-;
    cbn [snd pred_actions finger_state set_pred_actions set_finger_state];
    rewrite length_app; cbn [length repeat];
    (split; [lia|]); (split; [reflexivity|]); (split; [lia|reflexivity]).
Qed.

(** What a chunk that is decoded to its end has enqueued. *)
Lemma decode_chunk_returns (bbox : BBox) (chunk : list ndarray) :
  forall (pose : ndarray) (last : float) (st : Agent)
         (loc' : ndarray * float) (st' : Agent),
    decode_chunk bbox chunk (pose, last) st = (Ok loc', st') ->
    Forall (fun d => 7 <= length d) chunk
    /\ snd loc' = last_nonzero (map gripper chunk) last
    /\ length (pred_actions st')
       = length (pred_actions st) + length chunk
         + 4 * count_transitions (map gripper chunk) last
    /\ (finger_state st = last ->
        finger_state st' = last_nonzero (map gripper chunk) last).
Proof.
  induction chunk as [|d chunk IH]; intros pose last st loc' st' H.
  - injection H as <- <-. simpl.
    split; [constructor|]. split; [reflexivity|]. split; [lia|auto].
  - cbn [decode_chunk] in H. unfold bind in H.
    destruct (decode_entry bbox d (pose, last) st) as [[[pose1 last1]|e] st1]
      eqn:He; [|discriminate].
    destruct (decode_entry_returns _ _ _ _ _ _ _ He)
      as (Hd & Hl1 & Hq1 & Hf1).
    cbn [snd] in Hl1. subst last1.
    destruct (IH _ _ _ _ _ H) as (Hall & Hl & Hq & Hf).
    cbn [map last_nonzero fold_left count_transitions length].
    split; [constructor; assumption|]. split; [exact Hl|]. split.
    + rewrite Hq, Hq1.
      destruct ((gripper d =? 0)%float || (gripper d =? last)%float); lia.
    + intros Hfl. apply Hf. rewrite Hf1.
      destruct (gripper d =? 0)%float eqn:Hz; cbn [orb negb].
      * exact Hfl.
      * destruct (gripper d =? last)%float eqn:Hl'; [|reflexivity].
        rewrite Hfl. symmetry. apply (float_eqb_nonzero_eq _ _ Hz Hl').
Qed.

Lemma count_transitions_le (gs : list float) :
  forall last, count_transitions gs last <= length gs.
Proof.
  induction gs as [|g gs IH]; intros last; simpl; [lia|].
  specialize (IH (if negb (g =? 0)%float then g else last)).
  destruct ((g =? 0)%float || (g =? last)%float); simpl; lia.
Qed.

Lemma decode_entry_bbox (bbox : BBox) (delta : ndarray)
    (loc : ndarray * float) (st : Agent) :
  exists acts,
    pred_actions (snd (decode_entry bbox delta loc st)) = pred_actions st ++ acts
    /\ Forall (fun x => snd x = bbox) acts.
Proof.
  destruct loc as [pose last]. rewrite decode_entry_eq.
  destruct (delta_to_abs delta pose) as [a|];
    [|exists []; rewrite app_nil_r; split; constructor].
  destruct (getitem a 6) as [g|];
    [|exists []; rewrite app_nil_r; split; constructor].
  destruct (_ || _); eexists; (split; [reflexivity|]); repeat constructor.
Qed.

Lemma decode_chunk_bbox (bbox : BBox) (chunk : list ndarray) :
  forall (loc : ndarray * float) (st : Agent),
  exists acts,
    pred_actions (snd (decode_chunk bbox chunk loc st)) = pred_actions st ++ acts
    /\ Forall (fun x => snd x = bbox) acts.
Proof.
  induction chunk as [|d chunk IH]; intros loc st.
  - exists []. rewrite app_nil_r. split; constructor.
  - simpl. unfold bind.
    destruct (decode_entry_bbox bbox d loc st) as (a1 & H1 & F1).
    destruct (decode_entry bbox d loc st) as [[loc'|e] st']; cbn [snd] in *.
    + destruct (IH loc' st') as (a2 & H2 & F2).
      exists (a1 ++ a2). rewrite H2, H1, app_assoc. split; [reflexivity|].
      apply Forall_app; split; assumption.
    + exists a1. split; assumption.
Qed.

(** The refill of an empty queue that returns: what the chunk of the
    response has enqueued. *)
Lemma refill_phase_returns (obs : Obs) (net : Net) (st : Agent) (r : Response)
    (bbox : BBox) (chunk : list ndarray) (st' : Agent) :
  pred_actions st = [] ->
  reply net = Some r ->
  response_bbox r = Ok bbox ->
  resp_result r = Some chunk ->
  refill_phase obs net st = (Ok tt, st') ->
  Forall (fun d => 7 <= length d) chunk
  /\ length (pred_actions st')
     = length chunk
       + 4 * count_transitions (map gripper chunk) (finger_state st)
  /\ finger_state st'
     = last_nonzero (map gripper chunk) (finger_state st)
  /\ Forall (fun x => length (fst x) = 7 /\ snd x = bbox) (pred_actions st').
Proof.
  intros Hempty Hr Hb Hres H.
  rewrite refill_phase_eq in H.
  destruct (length (robot0_joint_pos obs) =? 7) eqn:Hq; [|discriminate].
  destruct (process_proprio_ok obs st Hq) as (h & _ & Hlast & Hp).
  rewrite Hempty, Hp in H. cbn [length Nat.eqb snd] in H.
  rewrite post_and_get_eq in H.
  destruct (send_ok net); [|discriminate].
  rewrite Hr, Hb in H.
  cbn [set_proprio_history proprio_history] in H. rewrite Hlast in H.
  unfold response_result in H. rewrite Hres in H.
  set (st1 := exchanged obs net (set_proprio_history h st)) in *.
  pose proof (decode_chunk_extends bbox chunk
                (slice 0 6 (proprio_frame obs (finger_state st)),
                 finger_state (set_proprio_history h st)) st1)
    as (_ & _ & _ & a1 & Ha1 & F1).
  destruct (decode_chunk_bbox bbox chunk
              (slice 0 6 (proprio_frame obs (finger_state st)),
               finger_state (set_proprio_history h st)) st1)
    as (a2 & Ha2 & F2).
  destruct (decode_chunk bbox chunk
              (slice 0 6 (proprio_frame obs (finger_state st)),
               finger_state (set_proprio_history h st)) st1)
    as [[loc'|e] st2] eqn:Hdc; [|discriminate].
  injection H as <-.
  destruct (decode_chunk_returns _ _ _ _ _ _ _ Hdc) as (Hall & _ & Hcount & Hfs).
  cbn [snd finger_state set_proprio_history] in *.
  assert (Hq1 : pred_actions st1 = []) by exact Hempty.
  rewrite Hq1 in *. cbn [app length] in *.
  split; [exact Hall|]. split; [exact Hcount|].
  split; [apply Hfs; reflexivity|].
  rewrite Ha1 in Ha2. subst a2. rewrite Ha1.
  rewrite Forall_forall in *. intros x Hx. split; auto.
Qed.

(** X2. A refill that returns has enqueued one action per entry of the
    chunk and four more per gripper transition: for a chunk of [n] entries
    between [n] and [5 n] actions, [n] exactly when no entry changes the
    gripper.  Each entry of the chunk had at least seven scalars. *)
Theorem refill_enqueues_count :
  forall (obs : Obs) (net : Net) (st : Agent) (r : Response)
         (bbox : BBox) (chunk : list ndarray),
    pred_actions st = [] ->
    reply net = Some r ->
    response_bbox r = Ok bbox ->
    resp_result r = Some chunk ->
    fst (refill_phase obs net st) = Ok tt ->
    length (pred_actions (snd (refill_phase obs net st)))
    = length chunk
      + 4 * count_transitions (map gripper chunk) (finger_state st)
    /\ length chunk
       <= length (pred_actions (snd (refill_phase obs net st)))
       <= 5 * length chunk
    /\ Forall (fun d => 7 <= length d) chunk.
Proof.
  intros obs net st r bbox chunk Hempty Hr Hb Hres Hret.
  destruct (refill_phase obs net st) as [[[]|e] st'] eqn:Hrf;
    [|discriminate Hret].
  destruct (refill_phase_returns obs net st r bbox chunk st'
              Hempty Hr Hb Hres Hrf) as (Hall & Hcount & _).
  cbn [snd]. split; [exact Hcount|]. split; [|exact Hall].
  pose proof (count_transitions_le (map gripper chunk) (finger_state st)) as Hle.
  rewrite length_map in Hle. lia.
Qed.

(** X3. After a refill that returns the gripper state is the last gripper
    scalar of the chunk that is not zero, and is unchanged when all of them
    are zero. *)
Theorem refill_commits_last_command :
  forall (obs : Obs) (net : Net) (st : Agent) (r : Response)
         (bbox : BBox) (chunk : list ndarray),
    pred_actions st = [] ->
    reply net = Some r ->
    response_bbox r = Ok bbox ->
    resp_result r = Some chunk ->
    fst (refill_phase obs net st) = Ok tt ->
    finger_state (snd (refill_phase obs net st))
    = last_nonzero (map gripper chunk) (finger_state st)
    /\ (Forall (fun d => (gripper d =? 0)%float = true) chunk ->
        finger_state (snd (refill_phase obs net st)) = finger_state st).
Proof.
  intros obs net st r bbox chunk Hempty Hr Hb Hres Hret.
  destruct (refill_phase obs net st) as [[[]|e] st'] eqn:Hrf;
    [|discriminate Hret].
  destruct (refill_phase_returns obs net st r bbox chunk st'
              Hempty Hr Hb Hres Hrf) as (_ & _ & Hfs & _).
  cbn [snd]. split; [exact Hfs|].
  intros Hzero. rewrite Hfs. clear - Hzero.
  generalize (finger_state st) as last.
  induction Hzero as [|d chunk Hd _ IH]; intros last; [reflexivity|].
  cbn [map last_nonzero fold_left]. rewrite Hd. apply IH.
Qed.

(** X4. A tick on an empty queue whose refill returns, on a response that
    carries a bounding box and a chunk that is not empty, returns an action
    of seven scalars paired with that bounding box, and leaves the rest of
    the decoded actions queued. *)
Theorem tick_returns_on_well_formed_chunk :
  forall (obs : Obs) (net : Net) (st : Agent) (r : Response)
         (bbox : BBox) (chunk : list ndarray),
    pred_actions st = [] ->
    reply net = Some r ->
    response_bbox r = Ok bbox ->
    resp_result r = Some chunk ->
    fst (refill_phase obs net st) = Ok tt ->
    chunk <> [] ->
    exists action st',
      step obs net st = (Ok (action, bbox), st')
      /\ length action = 7
      /\ S (length (pred_actions st'))
         = length chunk
           + 4 * count_transitions (map gripper chunk) (finger_state st).
Proof.
  intros obs net st r bbox chunk Hempty Hr Hb Hres Hret Hne.
  rewrite step_eq.
  destruct (refill_phase obs net st) as [[[]|e] st1] eqn:Hrf;
    [|discriminate Hret].
  destruct (refill_phase_returns obs net st r bbox chunk st1
              Hempty Hr Hb Hres Hrf) as (_ & Hcount & _ & Hshape).
  rewrite emit_phase_eq.
  destruct (pred_actions st1) as [|[a bb] rest] eqn:Hq1.
  - destruct chunk; [congruence|]. simpl in Hcount. lia.
  - inversion Hshape as [|? ? [Hlen Hbb] _]; subst. cbn [fst snd] in *.
    destruct a as [|s0 [|s1 [|s2 [|s3 [|s4 [|s5 [|s6 [|s7 a]]]]]]]];
      try discriminate.
    eexists. eexists. split; [reflexivity|]. split; [reflexivity|].
    cbn [pred_actions set_pred_actions]. simpl in Hcount. lia.
Qed.
End RefillFacts.

(** ** Ticks *)

Section TickFacts.
Context {C : Collaborators}.

Lemma emit_phase_instruction (st : Agent) :
  instruction (snd (emit_phase st)) = instruction st.
Proof.
  rewrite emit_phase_eq.
  destruct (pred_actions st) as [|[a bbox] rest]; [reflexivity|].
  destruct (getitem a 6); reflexivity.
Qed.

Lemma step_frame (obs : Obs) (net : Net) (st : Agent) :
  proprio_history (snd (step obs net st))
  = proprio_history (snd (process_proprio obs st))
  /\ instruction (snd (step obs net st)) = instruction st.
Proof.
  assert (Hrefill :
            proprio_history (snd (refill_phase obs net st))
            = proprio_history (snd (process_proprio obs st))
            /\ instruction (snd (refill_phase obs net st)) = instruction st).
  { rewrite refill_phase_eq.
    pose proof (process_proprio_frame obs st) as (_ & _ & _ & Hi).
    destruct (length (robot0_joint_pos obs) =? 7) eqn:Hq.
    - destruct (length (pred_actions st) =? 0); [|split; [reflexivity|exact Hi]].
      pose proof (post_and_get_extends obs net (snd (process_proprio obs st)))
        as H.
      destruct (send_ok net).
      + destruct H as (_ & Hh & Hi' & _). split; [exact Hh|].
        rewrite Hi'. exact Hi.
      + rewrite H. split; [reflexivity|exact Hi].
    - rewrite (process_proprio_raise obs st Hq). split; reflexivity. }
  rewrite step_eq.
  destruct (refill_phase obs net st) as [[u|e] st1]; cbn [snd] in *;
    [|exact Hrefill].
  destruct Hrefill as [Hh Hi].
  pose proof (emit_phase_frame st1) as (_ & _ & Hh').
  rewrite Hh', (emit_phase_instruction st1). split; assumption.
Qed.

(** X5. Every tick whose observation is usable pushes its frame into the
    history exactly once, whether the tick then returns an action or raises
    (a timeout, a malformed response, an empty queue): a tick repeated after
    a failure pushes its frame again.  A tick whose observation has not
    seven joint values raises before touching the agent. *)
Theorem tick_updates_history_once :
  forall (obs : Obs) (net : Net) (st : Agent),
    if length (robot0_joint_pos obs) =? 7 then
      buffer_update PROPRIO_HISTORY_SIZE (proprio_history st)
        (proprio_frame obs (finger_state st))
      = Ok (proprio_history (snd (step obs net st)))
    else step obs net st = (Raise RuntimeError, st).
Proof.
  intros obs net st.
  destruct (length (robot0_joint_pos obs) =? 7) eqn:Hq.
  - destruct (step_frame obs net st) as [Hh _]. rewrite Hh.
    destruct (process_proprio_ok obs st Hq) as (h & Hbu & _ & Hp).
    rewrite Hp. exact Hbu.
  - rewrite step_eq, refill_phase_eq, Hq. reflexivity.
Qed.

Lemma step_pop (obs : Obs) (net : Net) (st : Agent) (a : ndarray)
    (bbox : BBox) (rest : list (ndarray * BBox)) :
  (length (robot0_joint_pos obs) =? 7) = true ->
  pred_actions st = (a, bbox) :: rest ->
  length a = 7 ->
  step obs net st
  = (Ok (emitted (a, bbox)),
     set_pred_actions rest (snd (process_proprio obs st))).
Proof.
  intros Hq Hpa Hlen.
  pose proof (process_proprio_frame obs st) as (Hpa' & _).
  rewrite step_eq, refill_phase_eq, Hq, Hpa. cbn [length Nat.eqb].
  rewrite emit_phase_eq, Hpa', Hpa.
  destruct a as [|s0 [|s1 [|s2 [|s3 [|s4 [|s5 [|s6 [|s7 a]]]]]]]];
    try discriminate.
  reflexivity.
Qed.

Lemma run_collect_drain (ticks : list (Obs * Net)) :
  forall st : Agent,
    well_shaped st ->
    Forall (fun t => (length (robot0_joint_pos (fst t)) =? 7) = true) ticks ->
    length ticks <= length (pred_actions st) ->
    fst (run_collect ticks st)
    = map (fun x => Ok (emitted x)) (firstn (length ticks) (pred_actions st))
    /\ pred_actions (snd (run_collect ticks st))
       = skipn (length ticks) (pred_actions st)
    /\ wire (snd (run_collect ticks st)) = wire st
    /\ finger_state (snd (run_collect ticks st)) = finger_state st.
Proof.
  induction ticks as [|[obs net] ticks IH]; intros st Hws Hobs Hlen.
  - repeat split.
  - inversion Hobs as [|? ? Hq Hobs']; subst. cbn [fst] in Hq.
    destruct (pred_actions st) as [|[a bbox] rest] eqn:Hpa;
      [simpl in Hlen; lia|].
    assert (Ha : length a = 7).
    { destruct Hws as [_ Hall]. rewrite Hpa in Hall.
      inversion Hall; subst. assumption. }
    cbn [run_collect]. rewrite (step_pop obs net st a bbox rest Hq Hpa Ha).
    set (st1 := set_pred_actions rest (snd (process_proprio obs st))).
    assert (Hws1 : well_shaped st1).
    { destruct (process_proprio_well_shaped obs st Hws) as [Hh _].
      split; [exact Hh|].
      destruct Hws as [_ Hall]. rewrite Hpa in Hall.
      inversion Hall; subst. assumption. }
    assert (Hlen1 : length ticks <= length (pred_actions st1))
      by (simpl in Hlen |- *; lia).
    destruct (IH st1 Hws1 Hobs' Hlen1) as (Hout & Hq1 & Hw1 & Hf1).
    destruct (run_collect ticks st1) as [rs st2]. cbn [fst snd] in *.
    pose proof (process_proprio_frame obs st) as (_ & Hfs & Hw & _).
    repeat split.
    + rewrite Hout. reflexivity.
    + exact Hq1.
    + rewrite Hw1. exact Hw.
    + rewrite Hf1. exact Hfs.
Qed.

(** X6. The queue is drained first in, first out, without the server: an
    agent holding [n] queued actions answers the next [k <= n] ticks with
    its first [k] queued actions in order, each with its gripper scalar
    negated, sends and receives nothing, and keeps its gripper state and
    the [n - k] other actions. *)
Theorem queue_drained_in_order :
  forall (st : Agent) (ticks : list (Obs * Net)),
    reachable st ->
    Forall (fun t => (length (robot0_joint_pos (fst t)) =? 7) = true) ticks ->
    length ticks <= length (pred_actions st) ->
    fst (run_collect ticks st)
    = map (fun x => Ok (emitted x)) (firstn (length ticks) (pred_actions st))
    /\ pred_actions (snd (run_collect ticks st))
       = skipn (length ticks) (pred_actions st)
    /\ wire (snd (run_collect ticks st)) = wire st
    /\ finger_state (snd (run_collect ticks st)) = finger_state st.
Proof.
  intros st ticks Hr. apply run_collect_drain, reachable_well_shaped, Hr.
Qed.

Lemma step_session_inv (instr : string) (obs : Obs) (net : Net) (st : Agent) :
  session_inv instr st -> session_inv instr (snd (step obs net st)).
Proof.
  intros (Hi & Hlen & Hws & Hreq).
  destruct (step_frame obs net st) as [Hh Hi'].
  pose proof (process_proprio_well_shaped obs st Hws) as [Hshape _].
  pose proof (process_proprio_frame obs st) as (_ & _ & _ & Hi1).
  assert (Hlen1 : (length (robot0_joint_pos obs) =? 7) = true ->
                  length (proprio_history (snd (process_proprio obs st))) = 4).
  { intros Hq.
    assert (Hpos : 0 < PROPRIO_HISTORY_SIZE)
      by (unfold PROPRIO_HISTORY_SIZE; lia).
    destruct (buffer_update_total PROPRIO_HISTORY_SIZE (proprio_history st)
                (proprio_frame obs (finger_state st)) Hpos)
      as (h & Hbu & _ & Hl & _).
    destruct (process_proprio_ok obs st Hq) as (h' & Hbu' & _ & Hp).
    rewrite Hp. cbn [snd set_proprio_history proprio_history].
    assert (h' = h) by congruence. subst h'. apply Hl, Hlen. }
  split; [congruence|]. split; [|split].
  - rewrite Hh.
    destruct (length (robot0_joint_pos obs) =? 7) eqn:Hq.
    + rewrite (Hlen1 eq_refl). unfold PROPRIO_HISTORY_SIZE. lia.
    + rewrite (process_proprio_raise obs st Hq). exact Hlen.
  - apply step_well_shaped, Hws.
  - rewrite step_wire. apply Forall_app; split; [exact Hreq|].
    unfold round.
    destruct (length (robot0_joint_pos obs) =? 7) eqn:Hq; [|constructor].
    destruct (_ && _); [|constructor].
    constructor; [|constructor; [exact I|constructor]].
    cbn [request_ok make_request req_text req_front_view_image
         req_side_view_image req_proprio_array length].
    repeat split; [congruence|apply Hlen1; reflexivity|exact Hshape].
Qed.

Lemma run_session_inv (instr : string) (ticks : list (Obs * Net)) :
  forall st, session_inv instr st -> session_inv instr (run ticks st).
Proof.
  induction ticks as [|[obs net] ticks IH]; intros st H; [exact H|].
  apply IH, step_session_inv, H.
Qed.

(** X7. The wire format.  Whatever the ticks, every request an agent sent
    carries the instruction it was constructed with, one image per view,
    and exactly four frames of seven scalars; the agent
    keeps its instruction, and its history never holds more than four
    frames. *)
Theorem requests_well_formed :
  forall (instr : string) (ticks : list (Obs * Net)),
    let st := run ticks (initialize_state instr) in
    instruction st = instr
    /\ length (proprio_history st) <= 4
    /\ (forall data,
          In (EvSend data) (wire st) ->
          req_text data = instr
          /\ length (req_front_view_image data) = 1
          /\ length (req_side_view_image data) = 1
          /\ length (req_proprio_array data) = 4
          /\ Forall (fun f => length f = 7) (req_proprio_array data)).
Proof.
  intros instr ticks st.
  assert (H0 : session_inv instr (initialize_state instr)).
  { repeat split; try constructor. unfold PROPRIO_HISTORY_SIZE; simpl; lia. }
  destruct (run_session_inv instr ticks _ H0) as (Hi & Hlen & _ & Hreq).
  split; [exact Hi|]. split; [exact Hlen|].
  intros data Hin. rewrite Forall_forall in Hreq.
  apply (Hreq _ Hin).
Qed.
End TickFacts.

(** ** [_validate_inputs] *)

Lemma lstrip_chars_spaces (l : list ascii) :
  forallb py_isspace (lstrip_chars l) = forallb py_isspace l.
Proof.
  induction l as [|c l IH]; [reflexivity|].
  simpl. destruct (py_isspace c) eqn:Hc; simpl.
  - exact IH.
  - rewrite Hc. reflexivity.
Qed.

Lemma lstrip_chars_nil (l : list ascii) :
  lstrip_chars l = [] <-> forallb py_isspace l = true.
Proof.
  induction l as [|c l IH]; simpl; [tauto|].
  destruct (py_isspace c); simpl; [exact IH|].
  split; discriminate.
Qed.

Lemma forallb_rev {A} (f : A -> bool) (l : list A) :
  forallb f (rev l) = forallb f l.
Proof.
  induction l as [|x l IH]; [reflexivity|].
  simpl. rewrite forallb_app, IH. simpl. rewrite andb_true_r. apply andb_comm.
Qed.

Lemma py_strip_empty (s : string) :
  py_strip s = EmptyString
  <-> forallb py_isspace (list_ascii_of_string s) = true.
Proof.
  unfold py_strip.
  set (l := list_ascii_of_string s).
  split.
  - intros H.
    destruct (rev (lstrip_chars (rev (lstrip_chars l)))) as [|c r] eqn:E;
      [|discriminate].
    apply (f_equal (@rev ascii)) in E. rewrite rev_involutive in E.
    simpl in E. apply lstrip_chars_nil in E.
    rewrite forallb_rev, lstrip_chars_spaces in E. exact E.
  - intros H.
    assert (E : lstrip_chars (rev (lstrip_chars l)) = []).
    { apply lstrip_chars_nil.
      rewrite forallb_rev, lstrip_chars_spaces. exact H. }
    rewrite E. reflexivity.
Qed.

(** X8. [_validate_inputs] accepts exactly an instruction with at least one
    character that is not whitespace together with a port from 1 to 65535,
    and raises ValueError for anything else. *)
Theorem validate_inputs_ok_iff :
  forall (instruction : string) (port : Z),
    (validate_inputs instruction port = Ok tt
     <-> (exists c, In c (list_ascii_of_string instruction)
                    /\ py_isspace c = false)
         /\ (1 <= port <= 65535)%Z)
    /\ (validate_inputs instruction port = Ok tt
        \/ validate_inputs instruction port = Raise ValueError).
Proof.
  intros instruction port. unfold validate_inputs.
  destruct (String.eqb_spec (py_strip instruction) "") as [He|Hne].
  - split; [|right; reflexivity].
    split; [discriminate|].
    intros [(c & Hin & Hc) _].
    apply py_strip_empty in He. rewrite forallb_forall in He.
    rewrite (He c Hin) in Hc. discriminate.
  - assert (Hex : exists c, In c (list_ascii_of_string instruction)
                            /\ py_isspace c = false).
    { destruct (forallb py_isspace (list_ascii_of_string instruction)) eqn:Hf.
      - apply py_strip_empty in Hf. contradiction.
      - clear - Hf. induction (list_ascii_of_string instruction) as [|c l IH];
          [discriminate|].
        simpl in Hf. destruct (py_isspace c) eqn:Hc.
        + destruct (IH Hf) as (c' & Hin & Hc'). exists c'. split; [right|]; auto.
        + exists c. split; [left; reflexivity|exact Hc]. }
    destruct (1 <=? port)%Z eqn:H1; destruct (port <=? 65535)%Z eqn:H2;
      cbn [andb negb].
    all: split; [|first [left; reflexivity|right; reflexivity]].
    all: split;
      [intros H; first [discriminate|split; [exact Hex|lia]]
      |intros [_ Hp]; first [reflexivity|lia]].
Qed.

(** ** [process_initial_state] *)

Lemma slice_length_eq (i j : nat) (a : ndarray) :
  length (slice i j a) = Nat.min (j - i) (length a - i).
Proof. unfold slice. rewrite length_firstn, length_skipn. reflexivity. Qed.

Lemma np_setslice_fits (a : ndarray) (i j : nat) (b : ndarray) :
  length b = length (slice i j a) ->
  np_setslice a i j b = Ok (firstn i a ++ b ++ skipn (i + length b) a).
Proof.
  intros H. unfold np_setslice. rewrite <- H, Nat.eqb_refl. reflexivity.
Qed.

Lemma np_setslice_mismatch (a : ndarray) (i j : nat) (b : ndarray) :
  length b <> length (slice i j a) -> length b <> 1 ->
  np_setslice a i j b = Raise ValueError.
Proof.
  intros H H1. unfold np_setslice.
  destruct (Nat.eqb_spec (length b) (length (slice i j a))); [contradiction|].
  destruct (Nat.eqb_spec (length b) 1); [contradiction|reflexivity].
Qed.

Lemma skipn_repeat {A} (x : A) (k n : nat) :
  skipn k (repeat x n) = repeat x (n - k).
Proof.
  revert n; induction k as [|k IH]; intros [|n]; simpl; auto.
Qed.

Lemma np_zeros_eq (num : nat) :
  np_zeros (Z.of_nat num - 13) =
  if num <? 13 then Raise ValueError else Ok (repeat 0%float (num - 13)).
Proof.
  unfold np_zeros.
  destruct (Z.ltb_spec (Z.of_nat num - 13) 0);
    destruct (Nat.ltb_spec num 13); try lia; [reflexivity|].
  replace (Z.to_nat (Z.of_nat num - 13)) with (num - 13) by lia.
  reflexivity.
Qed.

(** X9. For the suite [libero_object], [process_initial_state] needs a state
    of at least 30 scalars and raises ValueError on a shorter one; it
    returns the state without the seven scalars at indices 17 to 23 (the
    pose of the second object, the basket) and without its last six, so 13
    scalars shorter, whatever the task name and the number of objects. *)
Theorem process_initial_state_libero_object :
  forall (state : ndarray) (task_name : string) (object_num : nat),
    (30 <= length state ->
     process_initial_state state task_name "libero_object" object_num
     = Ok (firstn 17 state ++ slice 24 (length state - 6) state)
     /\ length (firstn 17 state ++ slice 24 (length state - 6) state)
        = length state - 13)
    /\ (length state < 30 ->
        process_initial_state state task_name "libero_object" object_num
        = Raise ValueError).
Proof.
  intros state task_name object_num.
  unfold process_initial_state.
  replace (String.eqb "libero_object" "libero_object") with true by reflexivity.
  rewrite np_zeros_eq. split.
  - intros Hlen.
    destruct (Nat.ltb_spec (length state) 13); [lia|].
    assert (Hl17 : length (slice 0 17 state) = 17)
      by (rewrite slice_length_eq; lia).
    assert (Hl24 : length (slice 24 (length state - 6) state)
                   = length state - 30)
      by (rewrite slice_length_eq; lia).
    rewrite np_setslice_fits
      by (rewrite Hl17, slice_length_eq, repeat_length; lia).
    rewrite Hl17, firstn_O. cbn [app Nat.add].
    rewrite np_setslice_fits.
    + split.
      * f_equal.
        rewrite firstn_app, Hl17, Nat.sub_diag, firstn_O, app_nil_r.
        rewrite (firstn_all2 (slice 0 17 state)) by (rewrite Hl17; lia).
        rewrite skipn_all2
          by (rewrite length_app, Hl17, length_skipn, repeat_length, Hl24; lia).
        rewrite app_nil_r. reflexivity.
      * rewrite length_app, length_firstn, Hl24. lia.
    + rewrite Hl24, slice_length_eq, !length_app, Hl17, length_skipn,
        repeat_length. lia.
  - intros Hlen.
    destruct (Nat.ltb_spec (length state) 13); [reflexivity|].
    rewrite np_setslice_mismatch; [reflexivity| |];
      rewrite ?slice_length_eq, ?repeat_length; lia.
Qed.

(** X10. For a task of LIVING_ROOM_SCENE1 or LIVING_ROOM_SCENE2 in another
    suite, [process_initial_state] keeps the first [10 + 7 * object_num]
    scalars and zeroes the rest of a state 13 scalars shorter; it raises
    ValueError when the state has fewer than [23 + 7 * object_num] scalars.
    For any other task it returns the state as it is. *)
Theorem process_initial_state_living_room :
  forall (state : ndarray) (task_name test_set : string) (object_num : nat),
    String.eqb test_set "libero_object" = false ->
    let k := 10 + 7 * object_num in
    (contains "LIVING_ROOM_SCENE1" task_name
     || contains "LIVING_ROOM_SCENE2" task_name = true ->
     (k + 13 <= length state ->
      process_initial_state state task_name test_set object_num
      = Ok (firstn k state ++ repeat 0%float (length state - 13 - k)))
     /\ (length state < k + 13 ->
         process_initial_state state task_name test_set object_num
         = Raise ValueError))
    /\ (contains "LIVING_ROOM_SCENE1" task_name
        || contains "LIVING_ROOM_SCENE2" task_name = false ->
        process_initial_state state task_name test_set object_num = Ok state).
Proof.
  intros state task_name test_set object_num Hset k.
  unfold process_initial_state. rewrite Hset.
  change (1 + 9 + 7 * object_num) with k.
  split; intros Hc; rewrite Hc; [|reflexivity].
  rewrite np_zeros_eq. split; intros Hlen.
  - destruct (Nat.ltb_spec (length state) 13); [lia|].
    assert (Hlk : length (slice 0 k state) = k)
      by (rewrite slice_length_eq; lia).
    rewrite np_setslice_fits
      by (rewrite Hlk, slice_length_eq, repeat_length; lia).
    rewrite Hlk, firstn_O. cbn [app Nat.add]. f_equal.
    rewrite skipn_repeat. unfold slice. rewrite Nat.sub_0_r. reflexivity.
  - destruct (Nat.ltb_spec (length state) 13); [reflexivity|].
    rewrite np_setslice_mismatch; [reflexivity| |];
      rewrite ?slice_length_eq, ?repeat_length; lia.
Qed.

(** ** The seeds of the parallel processes *)

Lemma stride_In {A} (step : nat) (l : list A) :
  forall skip x, In x (stride step skip l) -> In x l.
Proof.
  induction l as [|y l IH]; intros skip x H; [destruct H|].
  destruct skip as [|k]; simpl in H.
  - destruct H as [->|H]; [left; reflexivity|right; eauto].
  - right; eauto.
Qed.

Lemma stride_NoDup {A} (step : nat) (l : list A) :
  NoDup l -> forall skip, NoDup (stride step skip l).
Proof.
  induction 1 as [|y l Hy Hl IH]; intros skip; [constructor|].
  destruct skip as [|k]; simpl; [|apply IH].
  constructor; [|apply IH].
  intros Hin. apply Hy. eapply stride_In, Hin.
Qed.

Lemma stride_seq_In (step : nat) (Hstep : 0 < step) (m : nat) :
  forall a skip s,
    In s (stride step skip (seq a m))
    <-> a + skip <= s < a + m /\ (s - a - skip) mod step = 0.
Proof.
  induction m as [|m IH]; intros a skip s.
  - simpl. split; [tauto|lia].
  - cbn [seq]. destruct skip as [|k]; cbn [stride].
    + cbn [In]. rewrite IH. split.
      * intros [<-|[Hr Hm]].
        -- split; [lia|].
           replace (a - a - 0) with 0 by lia. apply Nat.Div0.mod_0_l.
        -- split; [lia|].
           replace (s - a - 0) with ((s - S a - (step - 1)) + 1 * step) by lia.
           rewrite Nat.Div0.mod_add. exact Hm.
      * intros [Hr Hm].
        destruct (Nat.eq_dec a s) as [E|E]; [left; exact E|right].
        assert (Hge : step <= s - a).
        { destruct (Nat.lt_ge_cases (s - a) step) as [Hlt|Hge]; [|exact Hge].
          replace (s - a - 0) with (s - a) in Hm by lia.
          rewrite Nat.mod_small in Hm by exact Hlt. lia. }
        split; [lia|].
        replace (s - a - 0) with ((s - S a - (step - 1)) + 1 * step) in Hm
          by lia.
        rewrite Nat.Div0.mod_add in Hm. exact Hm.
    + rewrite IH.
      replace (s - S a - k) with (s - a - S k) by lia.
      split; intros [Hr Hm]; (split; [lia|exact Hm]).
Qed.

(** X11. The trials are split among the parallel processes without loss or
    repetition: process [i] of [parallel_env_num] gets exactly the seeds
    below [trial_num] that are congruent to [i], each once, so every seed is
    run by one process and only one. *)
Theorem seed_list_partition :
  forall (trial_num parallel_env_num i : nat),
    i < parallel_env_num ->
    (forall s, In s (seed_list trial_num parallel_env_num i)
               <-> s < trial_num /\ s mod parallel_env_num = i)
    /\ NoDup (seed_list trial_num parallel_env_num i).
Proof.
  intros t n i Hi. unfold seed_list. split.
  - intros s. rewrite stride_seq_In by lia. cbn [Nat.add].
    replace (s - 0 - i) with (s - i) by lia.
    split.
    + intros [Hr Hm]. split; [lia|].
      replace s with (i + (s - i)) by lia.
      rewrite Nat.Div0.add_mod, Hm, Nat.add_0_r, Nat.Div0.mod_mod.
      apply Nat.mod_small, Hi.
    + intros [Hs Hm].
      pose proof (Nat.div_mod_eq s n) as Hdiv. rewrite Hm in Hdiv.
      split; [lia|].
      replace (s - i) with ((s / n) * n) by lia.
      apply Nat.Div0.mod_mul.
  - apply stride_NoDup, seq_NoDup.
Qed.

(** ** Object names: asset directories, BDDL instances *)

Lemma string_app_assoc (a b c : string) :
  ((a ++ b) ++ c = a ++ (b ++ c))%string.
Proof. induction a as [|x a IH]; simpl; [reflexivity|]. rewrite IH. reflexivity. Qed.

Lemma string_app_nil_r (a : string) : (a ++ "" = a)%string.
Proof. induction a as [|x a IH]; simpl; [reflexivity|]. rewrite IH. reflexivity. Qed.

Lemma normalize_target_of (name : string) :
  normalize_object_name (target_of name) = normalize_object_name name.
Proof.
  unfold normalize_object_name, target_of.
  induction name as [|c name IH]; [reflexivity|].
  cbn [replace_char]. rewrite IH. f_equal.
  destruct (Ascii.eqb_spec c "_") as [->|Hu]; [reflexivity|].
  destruct (Ascii.eqb_spec c " ") as [->|Hs]; reflexivity.
Qed.

Lemma normalize_no_space (name : string) :
  has_char " " (normalize_object_name name) = false.
Proof.
  unfold has_char, normalize_object_name.
  induction name as [|c name IH]; [reflexivity|].
  cbn [replace_char list_ascii_of_string existsb]. rewrite IH, orb_false_r.
  destruct (Ascii.eqb_spec c " ") as [->|Hs]; [reflexivity|].
  apply Ascii.eqb_neq. congruence.
Qed.

(** X12. The object of interest is a declared object.  For an object name
    of the scene, and the target playground.py derives from it (underscores
    turned into spaces), the instance [export_as_bddl_file] names as object
    of interest and in the goal is the instance that the objects section
    declares for that name and that the init section places; normalized
    names have no space. *)
Theorem bddl_target_is_declared :
  forall (object_names : list string) (name : string),
    In name object_names ->
    let target := target_of name in
    target_instance target = (prefixed_name name ++ "_1")%string
    /\ In ("    " ++ target_instance target ++ " - " ++ prefixed_name name)%string
          (object_entries object_names)
    /\ In ("    (On " ++ target_instance target
           ++ " floor_target_object_region)")%string
          (init_entries object_names)
    /\ has_char " " (target_instance target) = false.
Proof.
  intros object_names name Hin target.
  assert (Ht : target_instance target = (prefixed_name name ++ "_1")%string).
  { unfold target_instance, prefixed_name, target.
    rewrite normalize_target_of, string_app_assoc. reflexivity. }
  split; [exact Ht|]. split; [|split].
  - unfold object_entries. apply in_map_iff. exists name. split; [|exact Hin].
    rewrite Ht, string_app_assoc. reflexivity.
  - unfold init_entries. apply in_map_iff. exists name. split; [|exact Hin].
    rewrite Ht, string_app_assoc. reflexivity.
  - unfold target_instance, has_char.
    pose proof (normalize_no_space target) as Hn. unfold has_char in Hn.
    cbn [append list_ascii_of_string existsb]. cbn [Ascii.eqb Bool.eqb orb].
    clear - Hn.
    induction (normalize_object_name target) as [|c r IH]; [reflexivity|].
    cbn [append list_ascii_of_string existsb] in *.
    apply orb_false_iff in Hn as [Hc Hr]. rewrite Hc. exact (IH Hr).
Qed.

Lemma split_char_not_nil (sep : ascii) (s : string) : split_char sep s <> [].
Proof.
  induction s as [|c s IH]; simpl; [discriminate|].
  destruct (Ascii.eqb c sep); [discriminate|].
  destruct (split_char sep s); discriminate.
Qed.

Lemma concat_split_char (sep : ascii) (s : string) :
  String.concat (String sep "") (split_char sep s) = s.
Proof.
  induction s as [|c s IH]; [reflexivity|].
  cbn [split_char].
  destruct (Ascii.eqb_spec c sep) as [->|Hc].
  - pose proof (split_char_not_nil sep s) as Hne.
    destruct (split_char sep s) as [|h t] eqn:E; [contradiction|].
    change (String.concat (String sep EmptyString)
              (cons EmptyString (cons h t)))
      with (String sep (String.concat (String sep EmptyString) (cons h t))).
    rewrite IH. reflexivity.
  - pose proof (split_char_not_nil sep s) as Hne.
    destruct (split_char sep s) as [|h t] eqn:E; [contradiction|].
    destruct t as [|h' t].
    + simpl in *. rewrite IH. reflexivity.
    + change (String.concat (String sep EmptyString)
                (cons (String c h) (cons h' t)))
        with (String c (String.concat (String sep EmptyString)
                          (cons h (cons h' t)))).
      rewrite IH. reflexivity.
Qed.

Lemma split_char_no_sep (sep : ascii) (s : string) :
  has_char sep s = false -> split_char sep s = [s].
Proof.
  unfold has_char. induction s as [|c s IH]; [reflexivity|].
  cbn [list_ascii_of_string existsb split_char]. intros H.
  apply orb_false_iff in H as [Hc Hs].
  rewrite Ascii.eqb_sym, Hc, (IH Hs). reflexivity.
Qed.

Lemma split_char_app (sep : ascii) (t x : string) :
  split_char sep (t ++ String sep x) = split_char sep t ++ split_char sep x.
Proof.
  induction t as [|c t IH].
  - cbn [append split_char]. rewrite Ascii.eqb_refl. reflexivity.
  - cbn [append split_char]. rewrite IH.
    destruct (Ascii.eqb c sep); [reflexivity|].
    pose proof (split_char_not_nil sep t) as Hne.
    destruct (split_char sep t) as [|h tl]; [contradiction|reflexivity].
Qed.

(** X13. [extract_object_type] drops the last component of a name: for a
    name [t_x] whose last component [x] has no underscore it returns [t]
    (which may itself have underscores), and for a name without underscore
    it returns the empty string; joining what [split] returns gives the
    name back. *)
Theorem extract_object_type_spec :
  forall (t x s : string),
    (has_char "_" x = false ->
     extract_object_type (t ++ "_" ++ x) = t)
    /\ (has_char "_" s = false -> extract_object_type s = EmptyString)
    /\ String.concat "_" (split_char "_" s) = s.
Proof.
  intros t x s. unfold extract_object_type. split; [|split].
  - intros Hx. change ("_" ++ x)%string with (String "_" x).
    rewrite split_char_app, (split_char_no_sep _ _ Hx), removelast_last.
    apply concat_split_char.
  - intros Hs. rewrite (split_char_no_sep _ _ Hs). reflexivity.
  - apply concat_split_char.
Qed.

(** ** The names of the videos *)

Lemma chars_app (a b : string) :
  list_ascii_of_string (a ++ b)
  = list_ascii_of_string a ++ list_ascii_of_string b.
Proof. induction a as [|c a IH]; simpl; [reflexivity|]. rewrite IH. reflexivity. Qed.

Lemma string_of_chars_app (a b : list ascii) :
  string_of_list_ascii (a ++ b)
  = (string_of_list_ascii a ++ string_of_list_ascii b)%string.
Proof. induction a as [|c a IH]; simpl; [reflexivity|]. rewrite IH. reflexivity. Qed.

Lemma chars_length (a : string) :
  length (list_ascii_of_string a) = String.length a.
Proof. induction a as [|c a IH]; simpl; [reflexivity|]. rewrite IH. reflexivity. Qed.

Lemma has_char_app (c : ascii) (a b : string) :
  has_char c (a ++ b) = has_char c a || has_char c b.
Proof. unfold has_char. rewrite chars_app. apply existsb_app. Qed.

Lemma has_char_replace_char (c old new : ascii) (s : string) :
  c <> old -> c <> new ->
  has_char c (replace_char old new s) = has_char c s.
Proof.
  intros Hold Hnew. unfold has_char.
  induction s as [|x s IH]; [reflexivity|].
  cbn [replace_char list_ascii_of_string existsb]. rewrite IH. f_equal.
  destruct (Ascii.eqb_spec x old) as [->|Hx]; [|reflexivity].
  apply Ascii.eqb_neq in Hold, Hnew. rewrite Hold, Hnew. reflexivity.
Qed.

Lemma prefixb_app (p l : list ascii) : prefixb p (p ++ l) = true.
Proof.
  induction p as [|c p IH]; [reflexivity|].
  simpl. rewrite Ascii.eqb_refl. exact IH.
Qed.

Lemma py_endswith_app (p suffix : string) :
  py_endswith suffix (p ++ suffix) = true.
Proof. unfold py_endswith. rewrite chars_app, rev_app_distr. apply prefixb_app. Qed.

Lemma drop_last_app (k : nat) (p suffix : string) :
  String.length suffix = k -> drop_last k (p ++ suffix) = p.
Proof.
  intros Hk. unfold drop_last.
  rewrite chars_app, length_app, (chars_length suffix), Hk.
  replace (length (list_ascii_of_string p) + k - k)
    with (length (list_ascii_of_string p) + 0) by lia.
  rewrite firstn_app_2. cbn [firstn]. rewrite app_nil_r.
  apply string_of_list_ascii_of_string.
Qed.

(** Replacing the extension of a name without any other dot. *)
Lemma py_replace_extension (base new : string) :
  has_char "." base = false ->
  py_replace ".mp4" new (base ++ ".mp4") = (base ++ new)%string.
Proof.
  unfold py_replace, has_char. rewrite chars_app. intros Hdot.
  rewrite <- (string_of_list_ascii_of_string base) at 2.
  rewrite <- (string_of_list_ascii_of_string new) at 2.
  rewrite <- string_of_chars_app. f_equal.
  generalize (list_ascii_of_string new) as n.
  generalize dependent (list_ascii_of_string base).
  cbn [list_ascii_of_string].
  intros l Hdot n. induction l as [|c l IH].
  - cbn. rewrite app_nil_r. reflexivity.
  - cbn [existsb] in Hdot. apply orb_false_iff in Hdot as [Hc Hl].
    cbn [app replace_chars prefixb].
    rewrite Hc. cbn [andb]. rewrite (IH Hl). reflexivity.
Qed.

(** X14. The name of a video.  When neither the directory nor the test
    set, task id, object name and seed contain a dot, a recording that is
    started and stopped is converted by one ffmpeg command from
    [<dir>/<test_set>_<task_id>_pick_up_<object>_<seed>.mp4], the spaces of
    the object name replaced by underscores, to the same name ending in
    [_x264_success.mp4] or [_x264_fail.mp4]. *)
Theorem video_file_name :
  forall (dir test_set task_id object_name seed : string) (success : bool),
    has_char "." dir = false ->
    has_char "." test_set = false ->
    has_char "." task_id = false ->
    has_char "." object_name = false ->
    has_char "." seed = false ->
    let base :=
      (dir ++ "/" ++ test_set ++ "_" ++ task_id ++ "_pick_up_"
       ++ replace_char " " "_" object_name ++ "_" ++ seed)%string in
    let final :=
      (base ++ "_x264" ++ (if success then "_success" else "_fail")
       ++ ".mp4")%string in
    let lg :=
      stop_recording success
        (start_recording test_set task_id object_name seed (new_logger dir)) in
    video_name lg = Some (base ++ ".mp4")%string
    /\ new_video_name lg = Some final
    /\ video_writer lg = None
    /\ commands lg
       = [("ffmpeg -i " ++ (base ++ ".mp4") ++ " -vcodec libx264 " ++ final
           ++ " -y > /dev/null 2>&1")%string].
Proof.
  intros dir test_set task_id object_name seed success Hd Ht Hi Ho Hs
         base final lg.
  assert (Hbase : has_char "." base = false).
  { subst base. rewrite !has_char_app, Hd, Ht, Hi, Hs.
    rewrite has_char_replace_char, Ho by discriminate. reflexivity. }
  assert (Hname :
            (dir ++ "/" ++ test_set ++ "_" ++ task_id ++ "_pick_up_"
             ++ replace_char " " "_" object_name ++ "_" ++ seed ++ ".mp4")%string
            = (base ++ ".mp4")%string).
  { subst base. rewrite !string_app_assoc. reflexivity. }
  assert (Hx : py_replace ".mp4" "_x264.mp4" (base ++ ".mp4")
               = ((base ++ "_x264") ++ ".mp4")%string).
  { rewrite (py_replace_extension base _ Hbase), string_app_assoc.
    reflexivity. }
  assert (Hfinal :
            py_replace ".mp4" (if success then "_success.mp4" else "_fail.mp4")
              ((base ++ "_x264") ++ ".mp4")
            = final).
  { rewrite py_replace_extension
      by (rewrite has_char_app, Hbase; reflexivity).
    subst final. rewrite !string_app_assoc.
    destruct success; reflexivity. }
  subst lg. unfold stop_recording, start_recording, new_logger.
  cbn [video_writer new_video_name video_name save_dir commands].
  rewrite Hname, Hx, Hfinal. cbn [app].
  repeat split.
Qed.

(** X15. The logger's guards.  Stopping a recording that was not started
    does nothing, stopping twice is stopping once, and logging a frame
    raises RuntimeError before a recording is started and after it is
    stopped, while it succeeds once a recording is started. *)
Theorem logger_guards :
  forall (dir test_set task_id object_name seed : string) (b b' : bool)
         (lg : VideoLogger),
    stop_recording b (new_logger dir) = new_logger dir
    /\ stop_recording b' (stop_recording b lg) = stop_recording b lg
    /\ log_frame (new_logger dir) = Raise RuntimeError
    /\ log_frame
         (stop_recording b
            (start_recording test_set task_id object_name seed lg))
       = Raise RuntimeError
    /\ (exists lg',
          log_frame (start_recording test_set task_id object_name seed lg)
          = Ok lg'
          /\ video_writer lg' = Some 1).
Proof.
  intros. split; [reflexivity|]. split; [|split; [reflexivity|split]].
  - unfold stop_recording.
    destruct (video_writer lg) as [w|] eqn:Hw; [|rewrite Hw; reflexivity].
    destruct (new_video_name lg) as [n|] eqn:Hn;
      [|rewrite Hw, Hn; reflexivity].
    destruct (video_name lg) as [v|] eqn:Hv;
      [reflexivity|rewrite Hw, Hn, Hv; reflexivity].
  - reflexivity.
  - eexists. split; reflexivity.
Qed.

(** ** The category read off a video name *)

Lemma classify_tagged (body : string) (c : ascii) (success : bool) :
  classify_video
    (body ++ String c "_x264" ++ (if success then "_success" else "_fail")
     ++ ".mp4")
  = match nth_error (split_char "_" body) 4 with
    | Some category => Ok (Some (category, success))
    | None => Raise IndexError
    end.
Proof.
  set (tag := (if success then "_success" else "_fail")%string).
  set (x := (body ++ String c "_x264")%string).
  assert (Hname : (body ++ String c "_x264" ++ tag ++ ".mp4")%string
                  = ((x ++ tag) ++ ".mp4")%string).
  { subst x. rewrite !string_app_assoc. reflexivity. }
  rewrite Hname. unfold classify_video.
  rewrite py_endswith_app. cbn [negb].
  rewrite (drop_last_app 4 (x ++ tag) ".mp4" eq_refl).
  assert (Htag :
            (if py_endswith "_success" (x ++ tag)
             then Some (true, drop_last 8 (x ++ tag))
             else if py_endswith "_fail" (x ++ tag)
                  then Some (false, drop_last 5 (x ++ tag))
                  else None)
            = Some (success, x)).
  { subst tag. destruct success.
    - rewrite py_endswith_app, (drop_last_app 8 x "_success" eq_refl).
      reflexivity.
    - assert (Hno : py_endswith "_success" (x ++ "_fail") = false).
      { unfold py_endswith. rewrite chars_app, rev_app_distr. reflexivity. }
      rewrite Hno, py_endswith_app, (drop_last_app 5 x "_fail" eq_refl).
      reflexivity. }
  rewrite Htag.
  assert (Hx : x = ((body ++ String c "") ++ "_x264")%string).
  { subst x. rewrite string_app_assoc. reflexivity. }
  rewrite Hx at 1. rewrite py_endswith_app.
  subst x. rewrite (drop_last_app 6 body (String c "_x264") eq_refl).
  reflexivity.
Qed.

(** X16. The category of a video.  For a name the logger gives a
    playground video (empty test set and task id), the statistics read as
    category the first underscore-separated component of the object name,
    and the outcome from the tag; the six characters dropped for the
    five of [_x264] take the last character of the seed with them.  For a
    name of a benchmark video, whose test set has one underscore, the
    category read is always [up]. *)
Theorem video_category :
  forall (object seed : string) (c : ascii) (success : bool),
    classify_video
      ("__pick_up_" ++ object ++ "_" ++ seed ++ String c "_x264"
       ++ (if success then "_success" else "_fail") ++ ".mp4")
    = Ok (Some (hd EmptyString (split_char "_" object), success))
    /\ (forall suite1 suite2 task_id : string,
          has_char "_" suite1 = false ->
          has_char "_" suite2 = false ->
          has_char "_" task_id = false ->
          classify_video
            (suite1 ++ "_" ++ suite2 ++ "_" ++ task_id ++ "_pick_up_"
             ++ object ++ "_" ++ seed ++ String c "_x264"
             ++ (if success then "_success" else "_fail") ++ ".mp4")
          = Ok (Some ("up"%string, success))).
Proof.
  intros object seed c success. split.
  - assert (Hname :
              ("__pick_up_" ++ object ++ "_" ++ seed ++ String c "_x264"
               ++ (if success then "_success" else "_fail") ++ ".mp4")%string
              = (("__pick_up_" ++ object ++ "_" ++ seed) ++ String c "_x264"
                 ++ (if success then "_success" else "_fail") ++ ".mp4")%string).
    { rewrite !string_app_assoc. reflexivity. }
    rewrite Hname, classify_tagged.
    assert (Hsplit :
              split_char "_" ("__pick_up_" ++ object ++ "_" ++ seed)
              = [""%string; ""%string; "pick"%string; "up"%string]
                ++ split_char "_" object ++ split_char "_" seed).
    { rewrite <- split_char_app. reflexivity. }
    rewrite Hsplit.
    pose proof (split_char_not_nil "_" object) as Hne.
    destruct (split_char "_" object) as [|h t]; [contradiction|].
    reflexivity.
  - intros suite1 suite2 task_id H1 H2 H3.
    assert (Hname :
              (suite1 ++ "_" ++ suite2 ++ "_" ++ task_id ++ "_pick_up_"
               ++ object ++ "_" ++ seed ++ String c "_x264"
               ++ (if success then "_success" else "_fail") ++ ".mp4")%string
              = ((suite1 ++ "_" ++ suite2 ++ "_" ++ task_id ++ "_pick_up_"
                  ++ object ++ "_" ++ seed) ++ String c "_x264"
                 ++ (if success then "_success" else "_fail") ++ ".mp4")%string).
    { rewrite !string_app_assoc. reflexivity. }
    rewrite Hname, classify_tagged.
    assert (Hsplit :
              split_char "_"
                (suite1 ++ "_" ++ suite2 ++ "_" ++ task_id ++ "_pick_up_"
                 ++ object ++ "_" ++ seed)
              = [suite1; suite2; task_id; "pick"%string; "up"%string]
                ++ split_char "_" (object ++ "_" ++ seed)).
    { change ("_" ++ suite2 ++ "_" ++ task_id ++ "_pick_up_"
              ++ object ++ "_" ++ seed)%string
        with (String "_" (suite2 ++ "_" ++ task_id ++ "_pick_up_"
                          ++ object ++ "_" ++ seed)).
      rewrite split_char_app, (split_char_no_sep _ _ H1).
      change ("_" ++ task_id ++ "_pick_up_" ++ object ++ "_" ++ seed)%string
        with (String "_" (task_id ++ "_pick_up_" ++ object ++ "_" ++ seed)).
      rewrite split_char_app, (split_char_no_sep _ _ H2).
      change ("_pick_up_" ++ object ++ "_" ++ seed)%string
        with (String "_" ("pick_up_" ++ object ++ "_" ++ seed)).
      rewrite split_char_app, (split_char_no_sep _ _ H3).
      reflexivity. }
    rewrite Hsplit. reflexivity.
Qed.

(** ** Episodes *)

Section EpisodeFacts.
Context {C : Collaborators}.
Variable Env : Type.
Variable env_step : Env -> ndarray -> (Obs * bool) * Env.

Lemma set_last_proprio_frame (obs : Obs) (g v : float) :
  set_last (proprio_frame obs g) v = Ok (proprio_frame obs v).
Proof.
  unfold proprio_frame.
  destruct (fk_position _) as [[x y] z].
  destruct (quat2euler _) as [[rx ry] rz].
  reflexivity.
Qed.

Lemma stabilize_scene_agent (steps : nat) :
  forall (env : Env) (obs : Obs) (st : Agent),
    snd (stabilize_scene Env env_step steps env obs st) = st.
Proof.
  induction steps as [|n IH]; intros env obs st; [reflexivity|].
  cbn [stabilize_scene]. unfold bind at 1.
  rewrite get_current_proprio_eq.
  destruct (length (robot0_joint_pos obs) =? 7); [|reflexivity].
  unfold bind, lift. rewrite set_last_proprio_frame.
  destruct (env_step env _) as [[obs' done] env']. apply IH.
Qed.

(** X17. [stabilize_scene] never changes the agent: no frame enters the
    history, nothing is sent, the queue and the gripper state stay.  As long
    as the observations have seven joint values, each of its steps commands
    the pose measured from the current observation with the gripper scalar
    -1, whatever the gripper state of the agent; a first observation
    without seven joint values makes it raise RuntimeError. *)
Theorem stabilize_scene_holds_pose :
  forall (steps : nat) (env : Env) (obs : Obs) (st : Agent),
    snd (stabilize_scene Env env_step steps env obs st) = st
    /\ ((forall e a,
           (length (robot0_joint_pos (fst (fst (env_step e a)))) =? 7) = true) ->
        (length (robot0_joint_pos obs) =? 7) = true ->
        fst (stabilize_scene Env env_step steps env obs st)
        = Ok (hold_pose Env env_step steps env obs))
    /\ ((length (robot0_joint_pos obs) =? 7) = false ->
        fst (stabilize_scene Env env_step (S steps) env obs st)
        = Raise RuntimeError).
Proof.
  intros steps env obs st. split; [apply stabilize_scene_agent|]. split.
  - intros Henv. revert env obs st.
    induction steps as [|n IH]; intros env obs st Hobs; [reflexivity|].
    cbn [stabilize_scene hold_pose]. unfold bind at 1.
    rewrite get_current_proprio_eq, Hobs.
    unfold bind, lift. rewrite set_last_proprio_frame.
    pose proof (Henv env (proprio_frame obs (-1)%float)) as Hnext.
    destruct (env_step env _) as [[obs' done] env']. cbn [fst] in Hnext.
    apply IH, Hnext.
  - intros Hobs. cbn [stabilize_scene]. unfold bind at 1.
    rewrite get_current_proprio_eq, Hobs. reflexivity.
Qed.

Lemma log_frame_recording (lg : VideoLogger) :
  recording lg ->
  exists lg1,
    log_frame lg = Ok lg1 /\ recording lg1
    /\ commands lg1 = commands lg
    /\ forall b, stop_recording b lg1 = stop_recording b lg.
Proof.
  intros (Hw & Hn & Hv). unfold log_frame, stop_recording.
  destruct (video_writer lg) as [w|] eqn:Ew; [|contradiction].
  eexists. split; [reflexivity|].
  cbn [video_writer new_video_name video_name commands save_dir].
  split; [repeat split; [discriminate|exact Hn|exact Hv]|].
  split; [reflexivity|]. intros b.
  destruct (new_video_name lg); [|exfalso; apply Hn; reflexivity].
  destruct (video_name lg); [reflexivity|exfalso; apply Hv; reflexivity].
Qed.

Lemma round_length (obs : Obs) (net : Net) (st : Agent) :
  length (round obs net st) <= 2.
Proof. unfold round. destruct (_ && _); simpl; lia. Qed.

Lemma episode_loop_recording (net_at : nat -> Net) (left : nat) :
  forall (tick : nat) (env : Env) (obs : Obs) (a : Agent) (lg : VideoLogger)
         (r : result unit) (a' : Agent) (lg' : VideoLogger),
    recording lg ->
    episode_loop Env env_step net_at left tick env obs (a, lg)
    = (r, (a', lg')) ->
    length (wire a') <= length (wire a) + 2 * left
    /\ match r with
       | Ok _ => exists success, lg' = stop_recording success lg
       | Raise _ => recording lg' /\ commands lg' = commands lg
       end.
Proof.
  induction left as [|n IH]; intros tick env obs a lg r a' lg' Hrec Hrun.
  - cbn in Hrun. injection Hrun as <- <- <-.
    split; [lia|]. exists false. reflexivity.
  - cbn [episode_loop] in Hrun. unfold bind at 1 in Hrun.
    unfold with_agent at 1 in Hrun. cbn [fst snd] in Hrun.
    pose proof (step_wire obs (net_at tick) a) as Hw.
    pose proof (round_length obs (net_at tick) a) as Hr.
    destruct (step obs (net_at tick) a) as [[[action bbox]|e] a1];
      cbn [snd] in Hw.
    + destruct (env_step env action) as [[obs' done] env'].
      destruct (log_frame_recording lg Hrec)
        as (lg1 & Hlog & Hrec1 & Hcmd & Hstop).
      unfold bind at 1 in Hrun. unfold with_logger at 1 in Hrun.
      cbn [fst snd] in Hrun. rewrite Hlog in Hrun. destruct done.
      * cbn in Hrun. injection Hrun as <- <- <-.
        split; [rewrite Hw, length_app; lia|].
        exists true. apply Hstop.
      * destruct (IH (S tick) env' obs' a1 lg1 r a' lg' Hrec1 Hrun)
          as [Hlen Hres].
        split; [rewrite Hw, length_app in Hlen; lia|].
        destruct r.
        -- destruct Hres as [success Hs]. exists success.
           rewrite Hs. apply Hstop.
        -- destruct Hres as [Hr1 Hc1]. split; [exact Hr1|congruence].
    + injection Hrun as <- <- <-.
      split; [rewrite Hw, length_app; lia|]. split; [exact Hrec|reflexivity].
Qed.

(** X18. An episode and its video.  With a recording open, an episode that
    ends without an exception has stopped the recording exactly once, with
    a success or a fail tag; an episode in which a tick raises leaves the
    recording open and no conversion command run.  In both cases the agent
    sent at most [max_steps] requests.  An episode of no step is tagged
    fail. *)
Theorem run_episode_recording :
  forall (net_at : nat -> Net) (env : Env) (initial_obs : Obs)
         (max_steps stabilize_steps : nat) (a : Agent) (lg : VideoLogger)
         (r : result unit) (a' : Agent) (lg' : VideoLogger),
    recording lg ->
    run_episode Env env_step net_at env initial_obs max_steps
      stabilize_steps (a, lg) = (r, (a', lg')) ->
    length (wire a') <= length (wire a) + 2 * max_steps
    /\ match r with
       | Ok _ => exists success, lg' = stop_recording success lg
       | Raise _ => recording lg' /\ commands lg' = commands lg
       end
    /\ (max_steps = 0 -> r = Ok tt -> lg' = stop_recording false lg).
Proof.
  intros net_at env initial_obs max_steps stabilize_steps a lg r a' lg'
         Hrec Hrun.
  unfold run_episode in Hrun. unfold bind at 1 in Hrun.
  unfold with_agent at 1 in Hrun. cbn [fst snd] in Hrun.
  pose proof (stabilize_scene_agent stabilize_steps env initial_obs a) as Hst.
  destruct (stabilize_scene Env env_step stabilize_steps env initial_obs a)
    as [[[obs env']|e] a1]; cbn [snd] in Hst; subst a1.
  - destruct (episode_loop_recording net_at max_steps 0 env' obs a lg r a' lg'
                Hrec Hrun) as [Hlen Hres].
    split; [exact Hlen|]. split; [exact Hres|].
    intros -> _. cbn in Hrun. injection Hrun as _ _ <-. reflexivity.
  - injection Hrun as <- <- <-.
    split; [lia|]. split; [split; [exact Hrec|reflexivity]|].
    intros _ H. discriminate H.
Qed.
End EpisodeFacts.

(** ** The properties above on sample inputs *)

(** X1 on a delta whose third angle is infinite: the conversion raises
    what the rotation raises. *)
Lemma delta_to_abs_ok_iff_witness :
  @delta_to_abs Mock.collaborators [0; 0; 0; 0; 0; infinity; 1]%float
    [1; 2; 3; 0; 0; 0]%float
  = Raise ValueError.
Proof.
  apply (proj1 (proj2 (proj2 (proj2 (proj2
           (delta_to_abs_ok_iff (C := Mock.collaborators)
              [0; 0; 0; 0; 0; infinity; 1]%float [1; 2; 3; 0; 0; 0]%float)))))
           (0, 0, 0)%float ValueError);
    reflexivity.
Defined.

(** X2 on the first tick of a fresh agent: three entries, one transition,
    seven actions. *)
Lemma refill_enqueues_count_witness :
  length (pred_actions
            (snd (@refill_phase Mock.collaborators Mock.obs0
                    (Mock.net_of Sample.resp_grasp) Mock.agent0))) = 7.
Proof.
  apply (proj1 (refill_enqueues_count (C := Mock.collaborators) Mock.obs0
                  (Mock.net_of Sample.resp_grasp) Mock.agent0
                  Sample.resp_grasp Mock.bbox0
                  [[0.5; 0; 0; 0; 0; 0; 0];
                   [0; 0; -0.25; 0; 0; 0; -1];
                   [0; 0; 0.25; 0; 0; 0; -1]]%float
                  eq_refl eq_refl eq_refl eq_refl eq_refl)).
Defined.

(** X3 on the same tick: the gripper state becomes -1. *)
Lemma refill_commits_last_command_witness :
  finger_state
    (snd (@refill_phase Mock.collaborators Mock.obs0
            (Mock.net_of Sample.resp_grasp) Mock.agent0)) = (-1)%float.
Proof.
  apply (proj1 (refill_commits_last_command (C := Mock.collaborators) Mock.obs0
                  (Mock.net_of Sample.resp_grasp) Mock.agent0
                  Sample.resp_grasp Mock.bbox0
                  [[0.5; 0; 0; 0; 0; 0; 0];
                   [0; 0; -0.25; 0; 0; 0; -1];
                   [0; 0; 0.25; 0; 0; 0; -1]]%float
                  eq_refl eq_refl eq_refl eq_refl eq_refl)).
Defined.

(** X4 on the same tick. *)
Lemma tick_returns_on_well_formed_chunk_witness :
  exists action st',
    @step Mock.collaborators Mock.obs0 (Mock.net_of Sample.resp_grasp)
      Mock.agent0 = (Ok (action, Mock.bbox0), st')
    /\ length action = 7
    /\ S (length (pred_actions st')) = 7.
Proof.
  apply (tick_returns_on_well_formed_chunk (C := Mock.collaborators) Mock.obs0
           (Mock.net_of Sample.resp_grasp) Mock.agent0
           Sample.resp_grasp Mock.bbox0
           [[0.5; 0; 0; 0; 0; 0; 0];
            [0; 0; -0.25; 0; 0; 0; -1];
            [0; 0; 0.25; 0; 0; 0; -1]]%float
           eq_refl eq_refl eq_refl eq_refl eq_refl ltac:(discriminate)).
Defined.

(** X6 on the agent that holds six actions: two ticks, with a transport that
    would time out, return the arm-only action and the first closing
    action. *)
Lemma queue_drained_in_order_witness :
  map (fun r => match r with
                | Ok (a, _) => getitem a 6
                | Raise e => Raise e
                end)
    (fst (@run_collect Mock.collaborators
            [(Mock.obs0, Mock.net_timeout); (Mock.obs0, Mock.net_timeout)]
            Sample.agent1))
  = [Ok (-0)%float; Ok 1%float]
  /\ wire (snd (@run_collect Mock.collaborators
                  [(Mock.obs0, Mock.net_timeout); (Mock.obs0, Mock.net_timeout)]
                  Sample.agent1))
     = wire Sample.agent1.
Proof.
  pose proof (queue_drained_in_order (C := Mock.collaborators) Sample.agent1
                [(Mock.obs0, Mock.net_timeout); (Mock.obs0, Mock.net_timeout)]
                (reachable_step Mock.agent0 Mock.obs0
                   (Mock.net_of Sample.resp_grasp)
                   (reachable_init "pick up apple"))
                ltac:(repeat constructor)
                ltac:(vm_compute; repeat constructor))
    as (Hout & _ & Hwire & _).
  split; [rewrite Hout; vm_compute; reflexivity|exact Hwire].
Defined.

(** X10 on a state of 40 scalars with two objects before the basket. *)
Lemma process_initial_state_living_room_witness :
  process_initial_state Sample.state10 "LIVING_ROOM_SCENE2_pick_up_the_book"
    "libero_10" 2
  = Ok (firstn 24 Sample.state10 ++ repeat 0%float 3).
Proof.
  apply (proj1 (proj1 (process_initial_state_living_room Sample.state10
                         "LIVING_ROOM_SCENE2_pick_up_the_book" "libero_10" 2
                         eq_refl) eq_refl)).
  vm_compute. repeat constructor.
Defined.

(** X11 for ten trials on three processes: the seeds of process 1. *)
Lemma seed_list_partition_witness :
  (forall s, In s (seed_list 10 3 1) <-> s < 10 /\ s mod 3 = 1)
  /\ NoDup (seed_list 10 3 1).
Proof. apply (seed_list_partition 10 3 1). lia. Defined.

(** X12 for a scene of two objects. *)
Lemma bddl_target_is_declared_witness :
  target_instance (target_of "coffee_mug") = "objaverse_coffee_mug_1"%string
  /\ In "    objaverse_coffee_mug_1 - objaverse_coffee_mug"%string
        (object_entries ["apple"; "coffee_mug"]%string).
Proof.
  destruct (bddl_target_is_declared ["apple"; "coffee_mug"]%string
              "coffee_mug" ltac:(right; left; reflexivity))
    as (H1 & H2 & _).
  split; [exact H1|exact H2].
Defined.

(** X14 for a playground video. *)
Lemma video_file_name_witness :
  new_video_name (stop_recording true Sample.logger0)
  = Some "videos/__pick_up_coffee_mug_42_x264_success.mp4"%string.
Proof.
  apply (proj1 (proj2 (video_file_name "videos" "" "" "coffee mug" "42" true
                         eq_refl eq_refl eq_refl eq_refl eq_refl))).
Defined.

(** X18 on an episode of five steps at most, after two stabilizing steps:
    the simulator reports the task done, the video is tagged. *)
Lemma run_episode_recording_witness :
  let res :=
    @run_episode Mock.collaborators nat Sample.env_step
      (fun _ => Mock.net_of Sample.resp_grasp) 0 Mock.obs0 5 2
      (Mock.agent0, Sample.logger0) in
  length (wire (fst (snd res))) <= length (wire Mock.agent0) + 2 * 5
  /\ match fst res with
     | Ok _ =>
         exists success,
           snd (snd res) = stop_recording success Sample.logger0
     | Raise _ =>
         recording (snd (snd res))
         /\ commands (snd (snd res)) = commands Sample.logger0
     end.
Proof.
  intros res.
  assert (Hrec : recording Sample.logger0)
    by (repeat split; discriminate).
  destruct (run_episode_recording (C := Mock.collaborators) nat
              Sample.env_step (fun _ => Mock.net_of Sample.resp_grasp)
              0 Mock.obs0 5 2 Mock.agent0 Sample.logger0
              (fst res) (fst (snd res)) (snd (snd res)) Hrec
              ltac:(vm_compute; reflexivity))
    as (H1 & H2 & _).
  split; [exact H1|exact H2].
Defined.
